(** * bigcommerce-api-mcp: the tool dispatcher and its three tools

    A shallow embedding of [mcpServer.js] (the [CallToolRequestSchema]
    handler and [run]) and of the three operations under
    [tools/bigcommerce/res-tful-api-basics-blueprint/], together with the
    JavaScript primitives they rely on.

    Conventions of the embedding.
    - JavaScript strings are byte strings (UTF-8); on ASCII text, told
      by [Str.ascii], bytes and UTF-16 code units coincide.
    - Numbers are the integer-valued doubles of the safe range, carried
      as [Z]: identifiers, counts, pages and limits.  [Js.plain] tells
      the values whose string conversion the embedding prints as
      JavaScript does; a statement about the text of a conversion
      assumes it.
    - An object is the list of its own properties in enumeration order.
    - [await] is sequencing; what the platform answers ([fetch], the
      environment, the clock, the text parser) is an argument. *)

From Stdlib Require Import String Ascii List ZArith Bool Lia DecimalString.
Import ListNotations.
Open Scope string_scope.
Open Scope Z_scope.

(* ------------------------------------------------------------------ *)
(** ** Strings *)

Module Str.

Definition nl : string := String (ascii_of_nat 10) EmptyString.
Definition quote : string := String (ascii_of_nat 34) EmptyString.
Definition backslash : string := String (ascii_of_nat 92) EmptyString.

(** [String.prototype.startsWith]. *)
Fixpoint startsWith (s p : string) {struct p} : bool :=
  match p, s with
  | EmptyString, _ => true
  | String _ _, EmptyString => false
  | String a p', String b s' => Ascii.eqb a b && startsWith s' p'
  end.

(** [String.prototype.includes]. *)
Fixpoint includes (s p : string) : bool :=
  startsWith s p ||
  match s with
  | EmptyString => false
  | String _ s' => includes s' p
  end.

(** The first [n] bytes: [String.prototype.substring(0, n)] on ASCII
    text, where a byte is a UTF-16 code unit. *)
Fixpoint take (n : nat) (s : string) : string :=
  match n, s with
  | O, _ => EmptyString
  | _, EmptyString => EmptyString
  | S n', String c s' => String c (take n' s')
  end.

Fixpoint rev_onto (s acc : string) : string :=
  match s with
  | EmptyString => acc
  | String c s' => rev_onto s' (String c acc)
  end.

Definition rev (s : string) : string := rev_onto s EmptyString.

Definition byte (n : nat) : ascii := ascii_of_nat n.
Definition isByte (c : ascii) (n : nat) : bool := Nat.eqb (nat_of_ascii c) n.
Definition between (lo : nat) (c : ascii) (hi : nat) : bool :=
  Nat.leb lo (nat_of_ascii c) && Nat.leb (nat_of_ascii c) hi.

(** The one-byte members of WhiteSpace and LineTerminator:
    TAB, LF, VT, FF, CR, SP. *)
Definition ws1 (c : ascii) : bool := between 9 c 13 || isByte c 32.

(** U+00A0, in UTF-8. *)
Definition ws2 (a b : ascii) : bool := isByte a 194 && isByte b 160.

(** U+1680, U+2000..U+200A, U+2028, U+2029, U+202F, U+205F, U+3000,
    U+FEFF, in UTF-8. *)
Definition ws3 (a b c : ascii) : bool :=
  (isByte a 225 && isByte b 154 && isByte c 128)
  || (isByte a 226 && isByte b 128 && (between 128 c 138 || isByte c 168 || isByte c 169 || isByte c 175))
  || (isByte a 226 && isByte b 129 && isByte c 159)
  || (isByte a 227 && isByte b 128 && isByte c 128)
  || (isByte a 239 && isByte b 187 && isByte c 191).

Fixpoint trimStart (s : string) : string :=
  match s with
  | String a r1 =>
      if ws1 a then trimStart r1 else
      match r1 with
      | String b r2 =>
          if ws2 a b then trimStart r2 else
          match r2 with
          | String c r3 => if ws3 a b c then trimStart r3 else s
          | EmptyString => s
          end
      | EmptyString => s
      end
  | EmptyString => s
  end.

(** The same scan from the right end, on the reversed text. *)
Fixpoint trimStart_rev (s : string) : string :=
  match s with
  | String a r1 =>
      if ws1 a then trimStart_rev r1 else
      match r1 with
      | String b r2 =>
          if ws2 b a then trimStart_rev r2 else
          match r2 with
          | String c r3 => if ws3 c b a then trimStart_rev r3 else s
          | EmptyString => s
          end
      | EmptyString => s
      end
  | EmptyString => s
  end.

Definition trimEnd (s : string) : string := rev (trimStart_rev (rev s)).

(** [String.prototype.trim]. *)
Definition trim (s : string) : string := trimEnd (trimStart s).

Definition isEmpty (s : string) : bool :=
  match s with EmptyString => true | String _ _ => false end.

Fixpoint join (sep : string) (l : list string) : string :=
  match l with
  | [] => EmptyString
  | [x] => x
  | x :: rest => x ++ sep ++ join sep rest
  end.

(** Decimal text of an integer, as [Number.prototype.toString] prints
    the safe integers. *)
Definition ofZ (z : Z) : string := NilZero.string_of_int (Z.to_int z).
Definition ofNat (n : nat) : string := ofZ (Z.of_nat n).

Definition hexDigit (upper : bool) (n : nat) : ascii :=
  if Nat.ltb n 10 then byte (48 + n)
  else byte ((if upper then 55 else 87) + n).

(** An ASCII text: every byte is below 128. *)
Fixpoint ascii (s : string) : bool :=
  match s with
  | EmptyString => true
  | String c s' => Nat.ltb (nat_of_ascii c) 128 && ascii s'
  end.

End Str.

(* ------------------------------------------------------------------ *)
(** ** JavaScript values and the built-ins the sources call *)

Module Js.

(** The values [JSON.parse] produces; tool arguments and tool results
    are of this kind. *)
#[warning="-register-all"] Inductive value : Type :=
  | VNull
  | VBool (b : bool)
  | VNum (z : Z)
  | VStr (s : string)
  | VArr (items : list value)
  | VObj (props : list (string * value)).

Definition object : Type := list (string * value).

(** ToBoolean. *)
Definition truthy (v : value) : bool :=
  match v with
  | VNull => false
  | VBool b => b
  | VNum z => negb (Z.eqb z 0)
  | VStr s => negb (Str.isEmpty s)
  | VArr _ | VObj _ => true
  end.

Inductive type_tag : Type := TString | TNumber | TBoolean | TObject.

(** [typeof v]. *)
Definition typeof (v : value) : type_tag :=
  match v with
  | VNull => TObject
  | VBool _ => TBoolean
  | VNum _ => TNumber
  | VStr _ => TString
  | VArr _ | VObj _ => TObject
  end.

Definition type_tag_name (t : type_tag) : string :=
  match t with
  | TString => "string"
  | TNumber => "number"
  | TBoolean => "boolean"
  | TObject => "object"
  end.

Definition is_object_tag (t : type_tag) : bool :=
  match t with TObject => true | _ => false end.

Definition is_string_tag (t : type_tag) : bool :=
  match t with TString => true | _ => false end.

Definition Array_isArray (v : value) : bool :=
  match v with VArr _ => true | _ => false end.

(** Own property of an object, by name. *)
Fixpoint lookup (k : string) (o : object) : option value :=
  match o with
  | [] => None
  | (k', v) :: rest => if String.eqb k' k then Some v else lookup k rest
  end.

(** [v.k] for a name [k] that no prototype defines ([error], [data] and
    the argument names): [None] is [undefined]. *)
Definition get (v : value) (k : string) : option value :=
  match v with
  | VObj o => lookup k o
  | _ => None
  end.

(** ToBoolean of a possibly undefined value. *)
Definition truthy_opt (v : option value) : bool :=
  match v with
  | Some x => truthy x
  | None => false
  end.

(** The property names every plain object inherits from
    [Object.prototype]. *)
Definition Object_prototype_names : list string :=
  [ "constructor"; "__defineGetter__"; "__defineSetter__"; "hasOwnProperty";
    "__lookupGetter__"; "__lookupSetter__"; "isPrototypeOf";
    "propertyIsEnumerable"; "toString"; "valueOf"; "__proto__";
    "toLocaleString" ].

Definition mem (k : string) (l : list string) : bool :=
  existsb (String.eqb k) l.

Definition own (k : string) (o : object) : bool := mem k (map fst o).

(** [k in o]: own or inherited. *)
Definition has_in (k : string) (o : object) : bool :=
  own k o || mem k Object_prototype_names.

(** The text ToString yields, as template literals, [String(v)],
    [v.toString()] and [URLSearchParams.append] apply it.  An array
    joins its elements with a comma, [null] elements printing as
    nothing; an object prints as the [Object.prototype.toString] tag.
    The text is JavaScript's on the [plain] values below; on the values
    that do not [converts], JavaScript throws instead. *)
Fixpoint ToString (v : value) : string :=
  match v with
  | VNull => "null"
  | VBool true => "true"
  | VBool false => "false"
  | VNum z => Str.ofZ z
  | VStr s => s
  | VArr l =>
      Str.join ","
        ((fix each (l : list value) : list string :=
            match l with
            | [] => []
            | VNull :: r => EmptyString :: each r
            | x :: r => ToString x :: each r
            end) l)
  | VObj _ => "[object Object]"
  end.

(** Whether the conversion to a string completes.  A property named
    [toString] of the object's own shadows [Object.prototype.toString]
    and, being a JSON value, is not callable; [valueOf] then yields no
    primitive either, and the conversion throws a TypeError.  An array
    converts when its elements do. *)
Fixpoint converts (v : value) : bool :=
  match v with
  | VArr l =>
      (fix each (l : list value) : bool :=
         match l with
         | [] => true
         | x :: r => converts x && each r
         end) l
  | VObj props => negb (own "toString" props)
  | _ => true
  end.

(** The message of that TypeError. *)
Definition cannot_convert : string :=
  "Cannot convert object to primitive value".

(** [Number.MAX_SAFE_INTEGER]. *)
Definition MAX_SAFE_INTEGER : Z := 9007199254740991.

(** The values [ToString] prints as JavaScript does: the conversion
    completes and every number in them is a safe integer, which
    JavaScript prints digit by digit. *)
Fixpoint plain (v : value) : bool :=
  match v with
  | VNum z => Z.leb (Z.abs z) MAX_SAFE_INTEGER
  | VArr l =>
      (fix each (l : list value) : bool :=
         match l with
         | [] => true
         | x :: r => plain x && each r
         end) l
  | VObj props => negb (own "toString" props)
  | _ => true
  end.

(** QuoteJSONString, byte by byte. *)
Definition quote_byte (c : ascii) : string :=
  let n := nat_of_ascii c in
  if Nat.eqb n 34 then Str.backslash ++ Str.quote
  else if Nat.eqb n 92 then Str.backslash ++ Str.backslash
  else if Nat.eqb n 8 then Str.backslash ++ "b"
  else if Nat.eqb n 12 then Str.backslash ++ "f"
  else if Nat.eqb n 10 then Str.backslash ++ "n"
  else if Nat.eqb n 13 then Str.backslash ++ "r"
  else if Nat.eqb n 9 then Str.backslash ++ "t"
  else if Nat.ltb n 32 then
    Str.backslash ++ "u00"
      ++ String (Str.hexDigit false (Nat.div n 16))
           (String (Str.hexDigit false (Nat.modulo n 16)) EmptyString)
  else String c EmptyString.

Fixpoint quote_bytes (s : string) : string :=
  match s with
  | EmptyString => EmptyString
  | String c s' => quote_byte c ++ quote_bytes s'
  end.

Definition QuoteJSONString (s : string) : string :=
  Str.quote ++ quote_bytes s ++ Str.quote.

(** The closing step of SerializeJSONArray and SerializeJSONObject. *)
Definition wrap (opening closing gap stepback indent : string)
    (partial : list string) : string :=
  match partial with
  | [] => opening ++ closing
  | _ =>
      if Str.isEmpty gap then opening ++ Str.join "," partial ++ closing
      else
        opening ++ Str.nl ++ indent
          ++ Str.join ("," ++ Str.nl ++ indent) partial
          ++ Str.nl ++ stepback ++ closing
  end.

(** SerializeJSONProperty with gap [gap] at indentation [indent]. *)
Fixpoint serialize (gap indent : string) (v : value) : string :=
  match v with
  | VNull => "null"
  | VBool true => "true"
  | VBool false => "false"
  | VNum z => Str.ofZ z
  | VStr s => QuoteJSONString s
  | VArr l =>
      wrap "[" "]" gap indent (indent ++ gap)
        ((fix each (l : list value) : list string :=
            match l with
            | [] => []
            | x :: r => serialize gap (indent ++ gap) x :: each r
            end) l)
  | VObj o =>
      wrap "{" "}" gap indent (indent ++ gap)
        ((fix each (o : object) : list string :=
            match o with
            | [] => []
            | (k, x) :: r =>
                (QuoteJSONString k ++ ":"
                   ++ (if Str.isEmpty gap then EmptyString else " ")
                   ++ serialize gap (indent ++ gap) x) :: each r
            end) o)
  end.

(** [JSON.stringify(v)]. *)
Definition JSON_stringify (v : value) : string :=
  serialize EmptyString EmptyString v.

(** [JSON.stringify(v, null, 2)]. *)
Definition JSON_stringify_2 (v : value) : string :=
  serialize "  " EmptyString v.

(** The application/x-www-form-urlencoded byte serializer. *)
Definition form_byte (c : ascii) : string :=
  let n := nat_of_ascii c in
  if Str.between 48 c 57 || Str.between 65 c 90 || Str.between 97 c 122
     || Nat.eqb n 42 || Nat.eqb n 45 || Nat.eqb n 46 || Nat.eqb n 95
  then String c EmptyString
  else if Nat.eqb n 32 then "+"
  else String "%"%char
         (String (Str.hexDigit true (Nat.div n 16))
            (String (Str.hexDigit true (Nat.modulo n 16)) EmptyString)).

Fixpoint form_encode (s : string) : string :=
  match s with
  | EmptyString => EmptyString
  | String c s' => form_byte c ++ form_encode s'
  end.

(** [URLSearchParams]: the list of pairs, [append] at the end. *)
Definition URLSearchParams : Type := list (string * string).

Definition append (q : URLSearchParams) (k v : string) : URLSearchParams :=
  (q ++ [(k, v)])%list.

Definition URLSearchParams_toString (q : URLSearchParams) : string :=
  Str.join "&" (map (fun kv => form_encode (fst kv) ++ "=" ++ form_encode (snd kv)) q).

End Js.

(** What an awaited call comes to: a value, or a thrown [Error] with its
    [message]. *)
Inductive Outcome (A : Type) : Type :=
  | Returns (a : A)
  | Throws (message : string).

Arguments Returns {A} a.
Arguments Throws {A} message.

(* ------------------------------------------------------------------ *)
(** ** mcpServer.js: the call handler *)

Module McpServer.
Import Js.

(** A tool as [discoverTools] yields it: [function] and, flattened, the
    fields of [definition.function] the handler reads. *)
Record Tool : Type := {
  name : string;
  description : string;
  required : option (list string);
  function : object -> Outcome value
}.

Inductive ErrorCode : Type := MethodNotFound | InvalidParams | InternalError.

Record TextContent : Type := { type : string; text : string }.

Record Meta : Type := {
  toolName : string;
  resultType : string;
  hasData : value;
  timestamp : string
}.

(** The object the handler returns; an absent key is [None]. *)
Record Envelope : Type := {
  content : list TextContent;
  isError : option bool;
  _meta : option Meta
}.

(** The handler either returns an envelope or throws
    [new McpError(code, message)]. *)
Inductive Reply : Type :=
  | Responds (e : Envelope)
  | Fault (code : ErrorCode) (message : string).

(** [for (const requiredParameter of requiredParameters)
      if (!(requiredParameter in args)) throw ...]:
    the name the loop throws on, if any. *)
Fixpoint first_missing (requiredParameters : list string) (args : object)
    : option string :=
  match requiredParameters with
  | [] => None
  | requiredParameter :: rest =>
      if has_in requiredParameter args then first_missing rest args
      else Some requiredParameter
  end.

(** [result && typeof result === 'object' && result.error]. *)
Definition has_error (result : value) : bool :=
  truthy result && is_object_tag (typeof result)
  && truthy_opt (get result "error").

(** [v.length] of an array. *)
Definition array_length (v : value) : nat :=
  match v with VArr items => length items | _ => O end.

Definition is_null (v : value) : bool :=
  match v with VNull => true | _ => false end.

(** The [formattedResult] cascade. *)
Definition formattedResult (result : value) : string :=
  if is_string_tag (typeof result) then ToString result
  else if is_object_tag (typeof result) && negb (is_null result) then
    if Array_isArray result then
      "Found " ++ Str.ofNat (array_length result) ++ " items:" ++ Str.nl
        ++ JSON_stringify_2 result
    else
      match get result "data" with
      | Some data =>
          if truthy data && Array_isArray data then
            "Found " ++ Str.ofNat (array_length data) ++ " items:" ++ Str.nl
              ++ JSON_stringify_2 result
          else JSON_stringify_2 result
      | None => JSON_stringify_2 result
      end
  else ToString result.

(** [result && typeof result === 'object'
      && (result.data || Array.isArray(result))], with the value
    [&&] and [||] hand on. *)
Definition hasData_of (result : value) : value :=
  if negb (truthy result) then result
  else if negb (is_object_tag (typeof result)) then VBool false
  else
    match get result "data" with
    | Some d => if truthy d then d else VBool (Array_isArray result)
    | None => VBool (Array_isArray result)
    end.

Definition text_item (s : string) : TextContent :=
  {| type := "text"; text := s |}.

(** [tool.definition?.function?.parameters?.required || []]. *)
Definition requiredParameters (tool : Tool) : list string :=
  match required tool with Some l => l | None => [] end.

(** The [try] block, as a function of what [await tool.function(args)]
    comes to; [now] is [new Date().toISOString()].  The template
    literal [`Error: ${result.error}`] sits inside the [try]: when the
    conversion of [result.error] throws, the [catch] turns the
    TypeError into the InternalError fault. *)
Definition reply_of (now toolName : string) (o : Outcome value) : Reply :=
  match o with
  | Throws message => Fault InternalError ("API error: " ++ message)
  | Returns result =>
      if has_error result then
        match get result "error" with
        | Some e =>
            if converts e then
              Responds
                {| content := [text_item ("Error: " ++ ToString e)];
                   isError := Some true;
                   _meta := None |}
            else Fault InternalError ("API error: " ++ cannot_convert)
        | None =>
            Responds
              {| content := [text_item "Error: undefined"];
                 isError := Some true;
                 _meta := None |}
        end
      else
        Responds
          {| content := [text_item (formattedResult result)];
             isError := None;
             _meta :=
               Some {| toolName := toolName;
                       resultType := type_tag_name (typeof result);
                       hasData := hasData_of result;
                       timestamp := now |} |}
  end.

(** The [CallToolRequestSchema] handler, on a request whose
    [params.arguments] is an object. *)
Definition callTool (tools : list Tool) (now : string)
    (toolName : string) (args : object) : Reply :=
  match find (fun t => String.eqb (name t) toolName) tools with
  | None => Fault MethodNotFound ("Unknown tool: " ++ toolName)
  | Some tool =>
      match first_missing (requiredParameters tool) args with
      | Some requiredParameter =>
          Fault InvalidParams
            ("Missing required parameter: " ++ requiredParameter)
      | None => reply_of now toolName (function tool args)
      end
  end.

(** *** [run] and the interrupt handler *)

Inductive Binding : Type := Stdio | SSE | StreamableHttp.

(** The routes each binding's express app registers. *)
Definition endpoints (b : Binding) : list (string * string) :=
  match b with
  | Stdio => []
  | StreamableHttp => [("GET", "/health"); ("GET", "/info"); ("POST", "/mcp")]
  | SSE => [("GET", "/sse"); ("POST", "/messages"); ("GET", "/health")]
  end.

(** Where the process stands once [run] has settled: gone through
    [process.exit(code)], or serving [tools] over one binding.
    [Interrupted] is a process the signal ended with no handler of the
    program run. *)
Inductive Process : Type :=
  | Exited (code : Z)
  | Serving (b : Binding) (tools : list Tool)
  | Interrupted.

(** [run]; [discovered] is what [await discoverTools()] comes to.  The
    three [setup...] calls are taken to complete. *)
Definition run (process_argv : list string)
    (discovered : Outcome (list Tool)) : Process :=
  let args := skipn 2 process_argv in
  let isStreamableHttp := mem "--streamable-http" args in
  let isSSE := mem "--sse" args in
  match discovered with
  | Returns tools =>
      if isStreamableHttp && isSSE then Exited 1
      else if isStreamableHttp then Serving StreamableHttp tools
      else if isSSE then Serving SSE tools
      else Serving Stdio tools
  | Throws _ =>
      if isStreamableHttp || isSSE then
        if isStreamableHttp then Serving StreamableHttp []
        else if isSSE then Serving SSE []
        else Exited 0
      else Exited 1
  end.

(** An interrupt signal: [setupStdio] alone registers a handler, which
    closes the server and calls [process.exit(0)]. *)
Definition SIGINT (p : Process) : Process :=
  match p with
  | Serving Stdio _ => Exited 0
  | Serving _ _ => Interrupted
  | other => other
  end.

End McpServer.

(* ------------------------------------------------------------------ *)
(** ** The platform the operations run on *)

Module Platform.
Import Js.

(** [process.env], the two variables read. *)
Record Env : Type := {
  BIGCOMMERCE_API_KEY : option string;
  BIGCOMMERCE_STORE_HASH : option string
}.

(** The argument of [fetch]. *)
Record Request : Type := {
  url : string;
  method : string;
  headers : list (string * option string)
}.

(** What [fetch] resolves to. *)
Record Response : Type := {
  status : Z;
  statusText : string;
  body : string
}.

(** [response.ok]. *)
Definition ok (r : Response) : bool :=
  Z.leb 200 (status r) && Z.leb (status r) 299.

(** The TypeError undici raises on reading a body twice. *)
Definition body_unusable : string :=
  "Body is unusable: Body has already been read".

(** The statuses whose response has no body stream to consume. *)
Definition null_body_status (s : Z) : bool :=
  Z.eqb s 101 || Z.eqb s 103 || Z.eqb s 204 || Z.eqb s 205 || Z.eqb s 304.

(** A second read finds the body stream disturbed, unless there is
    none. *)
Definition unusable (r : Response) (bodyUsed : bool) : bool :=
  bodyUsed && negb (null_body_status (status r)).

(** [response.text()]; [bodyUsed] tells whether an earlier
    [response.json()] or [response.text()] has consumed the body. *)
Definition text (r : Response) (bodyUsed : bool) : Outcome string :=
  if unusable r bodyUsed then Throws body_unusable else Returns (body r).

(** A text without any JSON token: only TAB, LF, CR and SP. *)
Fixpoint no_token (s : string) : bool :=
  match s with
  | EmptyString => true
  | String c s' =>
      (Str.isByte c 9 || Str.isByte c 10 || Str.isByte c 13 || Str.isByte c 32)
      && no_token s'
  end.

(** [${x}] for an environment variable. *)
Definition env_text (x : option string) : string :=
  match x with Some s => s | None => "undefined" end.

Section Parser.

(** The platform's reader of a JSON text that has at least one token:
    the value, or the message of the SyntaxError. *)
Variable parse_text : string -> Outcome value.

(** [JSON.parse]. *)
Definition JSON_parse (s : string) : Outcome value :=
  if no_token s then Throws "Unexpected end of JSON input"
  else parse_text s.

(** [response.json()]. *)
Definition json (r : Response) (bodyUsed : bool) : Outcome value :=
  if unusable r bodyUsed then Throws body_unusable else JSON_parse (body r).

End Parser.

End Platform.

(* ------------------------------------------------------------------ *)
(** ** tools/bigcommerce/res-tful-api-basics-blueprint *)

Module Tools.
Import Js Platform.

Definition baseUrl : string := "https://api.bigcommerce.com/stores".

Definition sentinel : value :=
  VObj [("data", VArr []); ("meta", VObj [("total", VNum 0)])].

Section Operations.

Variable parse_text : string -> Outcome value.
Variable env : Env.
Variable fetch : Request -> Outcome Response.

(** [${store_Hash || process.env.BIGCOMMERCE_STORE_HASH}]. *)
Definition storeHash (args : object) : string :=
  match lookup "store_Hash" args with
  | Some store_Hash =>
      if truthy store_Hash then ToString store_Hash
      else env_text (BIGCOMMERCE_STORE_HASH env)
  | None => env_text (BIGCOMMERCE_STORE_HASH env)
  end.

Definition request_headers : list (string * option string) :=
  [ ("X-Auth-Token", BIGCOMMERCE_API_KEY env);
    ("Content-Type", Some "application/json");
    ("Accept", Some "application/json") ].

Definition GET (u : string) : Request :=
  {| url := u; method := "GET"; headers := request_headers |}.

(** The outer [catch (error)] of the three operations. *)
Definition caught (what : string) (o : Outcome value) : value :=
  match o with
  | Returns data => data
  | Throws message =>
      VObj [("error",
             VStr ("An error occurred while getting all " ++ what ++ ": "
                     ++ message))]
  end.

(** [if (x) queryParams.append(key, x.toString())], and the same with
    the conversion left to [append]. *)
Definition append_if (x : option value) (key : string) (q : URLSearchParams)
    : URLSearchParams :=
  match x with
  | Some v => if truthy v then append q key (ToString v) else q
  | None => q
  end.

(** A destructuring default: [x = d]. *)
Definition or_default (d : value) (x : option value) : option value :=
  match x with
  | Some v => Some v
  | None => Some d
  end.

(** [url + (queryParams.toString() ? '?' + queryParams.toString() : '')]. *)
Definition with_query (u : string) (q : URLSearchParams) : string :=
  if Str.isEmpty (URLSearchParams_toString q) then u
  else u ++ "?" ++ URLSearchParams_toString q.

(** The [if (!response.ok)] block of get-all-products.js and
    get-all-orders.js. *)
Definition not_ok_json_or_text (response : Response) : Outcome value :=
  match json parse_text response false with
  | Returns errorData => Throws (JSON_stringify errorData)
  | Throws _ =>
      match text response true with
      | Returns errorText =>
          Throws ("HTTP " ++ Str.ofZ (status response) ++ ": "
                    ++ (if Str.isEmpty errorText then statusText response
                        else errorText))
      | Throws message => Throws message
      end
  end.

(** The rest of the [try] block of get-all-products.js and
    get-all-orders.js, from the [fetch] on. *)
Definition read_or_sentinel (fetched : Outcome Response) : Outcome value :=
  match fetched with
  | Throws message => Throws message
  | Returns response =>
      if negb (ok response) then not_ok_json_or_text response
      else
        match text response false with
        | Throws message => Throws message
        | Returns responseText =>
            if Str.isEmpty responseText
               || Str.isEmpty (Str.trim responseText)
            then Returns sentinel
            else
              match JSON_parse parse_text responseText with
              | Returns data => Returns data
              | Throws _ =>
                  Throws ("Invalid JSON response: "
                            ++ Str.take 200 responseText ++ "...")
              end
        end
  end.

End Operations.

(** The destructured parameter [p] of an operation: [limit] and [page]
    carry their defaults. *)
Definition destructured (args : object) (p : string) : option value :=
  if String.eqb p "limit" then or_default (VNum 50) (lookup p args)
  else if String.eqb p "page" then or_default (VNum 1) (lookup p args)
  else lookup p args.

(** A run of [if (p) queryParams.append(k, p)] lines, one per row
    [(p, k)] of [table]. *)
Definition from_table (table : list (string * string)) (args : object)
    : URLSearchParams :=
  fold_left (fun q row => append_if (destructured args (fst row)) (snd row) q)
    table [].

(** What the table-driven builder appends for one row. *)
Definition row_pairs (args : object) (row : string * string)
    : list (string * string) :=
  match destructured args (fst row) with
  | Some v => if truthy v then [(snd row, ToString v)] else []
  | None => []
  end.

(** *** get-all-products.js *)

Module GetAllProducts.
Section Operation.

Variable parse_text : string -> Outcome value.
Variable env : Env.
Variable fetch : Request -> Outcome Response.

Definition request (args : object) : Request :=
  GET env (baseUrl ++ "/" ++ storeHash env args ++ "/v3/catalog/products").

Definition executeFunction (args : object) : value :=
  caught "products" (read_or_sentinel parse_text (fetch (request args))).

Definition apiTool : McpServer.Tool :=
  {| McpServer.name := "get_all_products";
     McpServer.description :=
       "Get all products from the BigCommerce API. Store hash is automatically retrieved from environment variables.";
     McpServer.required := Some [];
     McpServer.function := fun args => Returns (executeFunction args) |}.

End Operation.
End GetAllProducts.

(** *** get-all-orders.js *)

Module GetAllOrders.

(** The parameters the operation turns into query keys, in the order of
    its [append] lines: the parameter, then the key. *)
Definition parameters : list (string * string) :=
  [ ("customer_id", "customer_id"); ("email", "email");
    ("status_id", "status_id"); ("min_id", "min_id"); ("max_id", "max_id");
    ("min_total", "min_total"); ("max_total", "max_total");
    ("min_date_created", "min_date_created");
    ("max_date_created", "max_date_created");
    ("min_date_modified", "min_date_modified");
    ("max_date_modified", "max_date_modified");
    ("channel_id", "channel_id"); ("payment_method", "payment_method");
    ("cart_id", "cart_id"); ("external_order_id", "external_order_id");
    ("sort", "sort"); ("limit", "limit"); ("page", "page") ].

Section Operation.

Variable parse_text : string -> Outcome value.
Variable env : Env.
Variable fetch : Request -> Outcome Response.

Definition queryParams (args : object) : URLSearchParams :=
  let q := [] in
  let q := append_if (lookup "customer_id" args) "customer_id" q in
  let q := append_if (lookup "email" args) "email" q in
  let q := append_if (lookup "status_id" args) "status_id" q in
  let q := append_if (lookup "min_id" args) "min_id" q in
  let q := append_if (lookup "max_id" args) "max_id" q in
  let q := append_if (lookup "min_total" args) "min_total" q in
  let q := append_if (lookup "max_total" args) "max_total" q in
  let q := append_if (lookup "min_date_created" args) "min_date_created" q in
  let q := append_if (lookup "max_date_created" args) "max_date_created" q in
  let q := append_if (lookup "min_date_modified" args) "min_date_modified" q in
  let q := append_if (lookup "max_date_modified" args) "max_date_modified" q in
  let q := append_if (lookup "channel_id" args) "channel_id" q in
  let q := append_if (lookup "payment_method" args) "payment_method" q in
  let q := append_if (lookup "cart_id" args) "cart_id" q in
  let q := append_if (lookup "external_order_id" args) "external_order_id" q in
  let q := append_if (lookup "sort" args) "sort" q in
  let q := append_if (or_default (VNum 50) (lookup "limit" args)) "limit" q in
  let q := append_if (or_default (VNum 1) (lookup "page" args)) "page" q in
  q.

Definition request (args : object) : Request :=
  GET env
    (with_query (baseUrl ++ "/" ++ storeHash env args ++ "/v2/orders")
       (queryParams args)).

Definition executeFunction (args : object) : value :=
  caught "orders" (read_or_sentinel parse_text (fetch (request args))).

Definition apiTool : McpServer.Tool :=
  {| McpServer.name := "get_all_orders";
     McpServer.description :=
       "Get all orders from the BigCommerce API. Can filter by customer_id to get products associated with specific customers through their order history. Store hash is automatically retrieved from environment variables.";
     McpServer.required := Some [];
     McpServer.function := fun args => Returns (executeFunction args) |}.

End Operation.
End GetAllOrders.

(** *** get-all-customers.js *)

Module GetAllCustomers.

(** The regular expression [/<title>(.*?)<\/title>/i], as
    [String.prototype.match] runs it. *)

Definition fold_case (c : ascii) : ascii :=
  if Str.between 65 c 90 then Str.byte (nat_of_ascii c + 32) else c.

(** The pattern's literal, matched at the head of [s] whatever the case. *)
Fixpoint literal_i (s p : string) {struct p} : bool :=
  match p, s with
  | EmptyString, _ => true
  | String _ _, EmptyString => false
  | String a p', String b s' =>
      Ascii.eqb (fold_case a) (fold_case b) && literal_i s' p'
  end.

(** A line terminator heads [s]: LF, CR, U+2028 or U+2029. *)
Definition at_line_terminator (s : string) : bool :=
  match s with
  | String a (String b (String c _)) =>
      Str.isByte a 10 || Str.isByte a 13
      || (Str.isByte a 226 && Str.isByte b 128
          && (Str.isByte c 168 || Str.isByte c 169))
  | String a _ => Str.isByte a 10 || Str.isByte a 13
  | EmptyString => false
  end.

(** [(.*?)<\/title>]: the shortest run without a line terminator that
    the closing tag follows; [seen] is that run so far, reversed. *)
Fixpoint lazy_group (s seen : string) : option string :=
  if literal_i s "</title>" then Some (Str.rev seen)
  else
    match s with
    | EmptyString => None
    | String c r =>
        if at_line_terminator s then None
        else lazy_group r (String c seen)
    end.

Fixpoint drop (n : nat) (s : string) : string :=
  match n, s with
  | O, _ => s
  | _, EmptyString => EmptyString
  | S n', String _ s' => drop n' s'
  end.

(** The first capture group of the leftmost match, if the text has one. *)
Fixpoint titleMatch (s : string) : option string :=
  match
    (if literal_i s "<title>" then lazy_group (drop 7 s) EmptyString
     else None)
  with
  | Some title => Some title
  | None =>
      match s with
      | EmptyString => None
      | String _ r => titleMatch r
      end
  end.

(** The parameters the operation turns into query keys, in the order of
    its [append] lines: the parameter, then the key. *)
Definition parameters : list (string * string) :=
  [ ("id", "id:in"); ("email", "email:in"); ("name", "name:in");
    ("name_like", "name:like"); ("company", "company:in");
    ("phone", "phone:in"); ("customer_group_id", "customer_group_id:in");
    ("registration_ip_address", "registration_ip_address:in");
    ("date_created", "date_created");
    ("date_created_min", "date_created:min");
    ("date_created_max", "date_created:max");
    ("date_modified", "date_modified");
    ("date_modified_min", "date_modified:min");
    ("date_modified_max", "date_modified:max");
    ("sort", "sort"); ("include", "include");
    ("limit", "limit"); ("page", "page") ].

Section Operation.

Variable parse_text : string -> Outcome value.
Variable env : Env.
Variable fetch : Request -> Outcome Response.

Definition queryParams (args : object) : URLSearchParams :=
  let q := [] in
  let q := append_if (lookup "id" args) "id:in" q in
  let q := append_if (lookup "email" args) "email:in" q in
  let q := append_if (lookup "name" args) "name:in" q in
  let q := append_if (lookup "name_like" args) "name:like" q in
  let q := append_if (lookup "company" args) "company:in" q in
  let q := append_if (lookup "phone" args) "phone:in" q in
  let q := append_if (lookup "customer_group_id" args) "customer_group_id:in" q in
  let q := append_if (lookup "registration_ip_address" args) "registration_ip_address:in" q in
  let q := append_if (lookup "date_created" args) "date_created" q in
  let q := append_if (lookup "date_created_min" args) "date_created:min" q in
  let q := append_if (lookup "date_created_max" args) "date_created:max" q in
  let q := append_if (lookup "date_modified" args) "date_modified" q in
  let q := append_if (lookup "date_modified_min" args) "date_modified:min" q in
  let q := append_if (lookup "date_modified_max" args) "date_modified:max" q in
  let q := append_if (lookup "sort" args) "sort" q in
  let q := append_if (lookup "include" args) "include" q in
  let q := append_if (or_default (VNum 50) (lookup "limit" args)) "limit" q in
  let q := append_if (or_default (VNum 1) (lookup "page" args)) "page" q in
  q.

Definition request (args : object) : Request :=
  GET env
    (with_query (baseUrl ++ "/" ++ storeHash env args ++ "/v3/customers")
       (queryParams args)).

(** The [let errorDetails] cascade. *)
Definition errorDetails (responseText : string) : string :=
  if Str.includes responseText "401"
     || Str.includes responseText "Unauthorized"
  then "Authentication failed - invalid API token"
  else if Str.includes responseText "403"
          || Str.includes responseText "Forbidden"
  then "Access forbidden - check API token permissions"
  else if Str.includes responseText "404"
          || Str.includes responseText "Not Found"
  then "Store not found - check store hash"
  else EmptyString.

Definition errorTitle (responseText : string) : string :=
  match titleMatch responseText with
  | Some title => title
  | None => "Unknown error"
  end.

(** The rest of the [try] block, from the [fetch] on. *)
Definition read (fetched : Outcome Response) : Outcome value :=
  match fetched with
  | Throws message => Throws message
  | Returns response =>
      if negb (ok response) then
        match text response false with
        | Throws message => Throws message
        | Returns errorText =>
            Throws ("HTTP " ++ Str.ofZ (status response) ++ ": " ++ errorText)
        end
      else
        match text response false with
        | Throws message => Throws message
        | Returns responseText =>
            if Str.startsWith (Str.trim responseText) "<" then
              Throws ("BigCommerce API Error: " ++ errorTitle responseText
                        ++ ". " ++ errorDetails responseText)
            else JSON_parse parse_text responseText
        end
  end.

Definition executeFunction (args : object) : value :=
  caught "customers" (read (fetch (request args))).

Definition apiTool : McpServer.Tool :=
  {| McpServer.name := "get_all_customers";
     McpServer.description :=
       "Get all customers from the BigCommerce API with comprehensive filtering options (email, name, company, phone, customer group, dates, pagination). Store hash is automatically retrieved from environment variables.";
     McpServer.required := Some [];
     McpServer.function := fun args => Returns (executeFunction args) |}.

End Operation.
End GetAllCustomers.

(** The three tools, as a list for the handler. *)
Definition registry (parse_text : string -> Outcome value) (env : Env)
    (fetch : Request -> Outcome Response) : list McpServer.Tool :=
  [ GetAllProducts.apiTool parse_text env fetch;
    GetAllCustomers.apiTool parse_text env fetch;
    GetAllOrders.apiTool parse_text env fetch ].

End Tools.

(* ------------------------------------------------------------------ *)
(** ** Sample platform and inputs *)

Module Samples.
Import Js Platform McpServer.

(** A reader for the JSON texts of the samples: [null], [true],
    [false], integers, strings without escapes, arrays and objects.
    Any other text is reported as a syntax error. *)

Fixpoint skip_ws (s : string) : string :=
  match s with
  | String c r =>
      if Str.isByte c 9 || Str.isByte c 10 || Str.isByte c 13 || Str.isByte c 32
      then skip_ws r else s
  | EmptyString => s
  end.

Definition expect (word : string) (v : value) (s : string)
    : option (value * string) :=
  if Str.startsWith s word
  then Some (v, Tools.GetAllCustomers.drop (String.length word) s)
  else None.

(** The characters up to the closing quote; [seen] is reversed. *)
Fixpoint read_string (s seen : string) : option (string * string) :=
  match s with
  | EmptyString => None
  | String c r =>
      if Str.isByte c 34 then Some (Str.rev seen, r)
      else if Str.isByte c 92 || Nat.ltb (nat_of_ascii c) 32 then None
      else read_string r (String c seen)
  end.

Fixpoint read_digits (s : string) (acc : Z) : Z * string :=
  match s with
  | String c r =>
      if Str.between 48 c 57
      then read_digits r (10 * acc + Z.of_nat (nat_of_ascii c - 48))
      else (acc, s)
  | EmptyString => (acc, s)
  end.

Definition head_is (s : string) (n : nat) : bool :=
  match s with String c _ => Str.isByte c n | EmptyString => false end.

Definition tail (s : string) : string :=
  match s with String _ r => r | EmptyString => s end.

Fixpoint read_value (fuel : nat) (s : string) : option (value * string) :=
  match fuel with
  | O => None
  | S fuel' =>
      let s := skip_ws s in
      if head_is s 110 then expect "null" VNull s
      else if head_is s 116 then expect "true" (VBool true) s
      else if head_is s 102 then expect "false" (VBool false) s
      else if head_is s 34 then
        match read_string (tail s) EmptyString with
        | Some (str, r) => Some (VStr str, r)
        | None => None
        end
      else if head_is s 45 then
        match tail s with
        | String c _ =>
            if Str.between 48 c 57 then
              let (z, r) := read_digits (tail s) 0 in Some (VNum (- z), r)
            else None
        | EmptyString => None
        end
      else if match s with String c _ => Str.between 48 c 57 | _ => false end
      then
        if head_is s 48
           && match tail s with String c _ => Str.between 48 c 57 | _ => false end
        then None
        else let (z, r) := read_digits s 0 in Some (VNum z, r)
      else if head_is s 91 then
        let r := skip_ws (tail s) in
        if head_is r 93 then Some (VArr [], tail r)
        else
          match read_items fuel' r with
          | Some (items, r') => Some (VArr items, r')
          | None => None
          end
      else if head_is s 123 then
        let r := skip_ws (tail s) in
        if head_is r 125 then Some (VObj [], tail r)
        else
          match read_members fuel' r with
          | Some (props, r') => Some (VObj props, r')
          | None => None
          end
      else None
  end
with read_items (fuel : nat) (s : string) : option (list value * string) :=
  match fuel with
  | O => None
  | S fuel' =>
      match read_value fuel' s with
      | Some (v, r) =>
          let r := skip_ws r in
          if head_is r 93 then Some ([v], tail r)
          else if head_is r 44 then
            match read_items fuel' (tail r) with
            | Some (vs, r') => Some (v :: vs, r')
            | None => None
            end
          else None
      | None => None
      end
  end
with read_members (fuel : nat) (s : string)
    : option (list (string * value) * string) :=
  match fuel with
  | O => None
  | S fuel' =>
      let s := skip_ws s in
      if head_is s 34 then
        match read_string (tail s) EmptyString with
        | Some (k, r) =>
            let r := skip_ws r in
            if head_is r 58 then
              match read_value fuel' (tail r) with
              | Some (v, r) =>
                  let r := skip_ws r in
                  if head_is r 125 then Some ([(k, v)], tail r)
                  else if head_is r 44 then
                    match read_members fuel' (tail r) with
                    | Some (kvs, r') => Some ((k, v) :: kvs, r')
                    | None => None
                    end
                  else None
              | None => None
              end
            else None
        | None => None
        end
      else None
  end.

Definition parse_text (s : string) : Outcome value :=
  match read_value (2 * String.length s + 2) s with
  | Some (v, r) =>
      if no_token r then Returns v
      else Throws "Unexpected non-whitespace character after JSON"
  | None => Throws "Unexpected token in JSON"
  end.

Definition env : Env :=
  {| BIGCOMMERCE_API_KEY := Some "key"; BIGCOMMERCE_STORE_HASH := Some "hash" |}.

(** An upstream that answers every request with one response. *)
Definition upstream (status : Z) (statusText body : string)
    : Request -> Outcome Response :=
  fun _ => Returns {| status := status; statusText := statusText; body := body |}.

(** A tool whose operation comes to [o] whatever the bag. *)
Definition mock (name : string) (required : option (list string))
    (o : Outcome value) : Tool :=
  {| McpServer.name := name;
     McpServer.description := EmptyString;
     McpServer.required := required;
     McpServer.function := fun _ => o |}.

(** [{"data":[{"id":1}]}], as a value and as a text. *)
Definition one_item : value := VObj [("data", VArr [VObj [("id", VNum 1)]])].

Definition abc : object := [("store_Hash", VStr "abc")].

Definition now : string := "2024-01-01T00:00:00.000Z".

(** An HTML page of the kind a rejected credential gets. *)
Definition unauthorized_page : string :=
  "<html><head><title>401 Unauthorized</title></head><body>Unauthorized</body></html>".

End Samples.

(* ------------------------------------------------------------------ *)
(** ** The specification's reading of the formatting policy *)

Module Spec.
Import Js.

(** Following the spec's words (4.2, step 6): the text by payload shape.
    A string verbatim; an array, and an object whose [data] is an
    array, the count line and then the whole payload pretty-printed;
    any other object pretty-printed; a number, a boolean or [null] its
    string conversion. *)
Definition text_by_shape (payload : value) : string :=
  match payload with
  | VStr s => s
  | VArr items =>
      "Found " ++ Str.ofNat (length items) ++ " items:" ++ Str.nl
        ++ JSON_stringify_2 payload
  | VObj props =>
      match lookup "data" props with
      | Some (VArr items) =>
          "Found " ++ Str.ofNat (length items) ++ " items:" ++ Str.nl
            ++ JSON_stringify_2 payload
      | _ => JSON_stringify_2 payload
      end
  | VNum _ | VBool _ | VNull => ToString payload
  end.

End Spec.

(* ------------------------------------------------------------------ *)
(** ** mcpServer.js: the list handler *)

(** [tool.definition.function], as the list handler reads it. *)
Module ToolDefinition.

Record t : Type := {
  name : string;
  description : string;
  parameters : option Js.value
}.

End ToolDefinition.

Module ListTools.
Import Js.

(** An entry of the list handler's answer. *)
Record Listed : Type := {
  name : string;
  description : string;
  inputSchema : option value
}.

(** [.filter(Boolean)] on the mapped array, [None] being [undefined]. *)
Fixpoint filter_Boolean {A : Type} (l : list (option A)) : list A :=
  match l with
  | [] => []
  | Some a :: r => a :: filter_Boolean r
  | None :: r => filter_Boolean r
  end.

(** [transformTools]; a tool is given by its [definition?.function],
    [None] when it has none. *)
Definition transformTools (tools : list (option ToolDefinition.t))
    : list Listed :=
  filter_Boolean
    (map
       (fun tool =>
          match tool with
          | None => None
          | Some definitionFunction =>
              Some {| name := ToolDefinition.name definitionFunction;
                      description := ToolDefinition.description definitionFunction;
                      inputSchema := ToolDefinition.parameters definitionFunction |}
          end)
       tools).

End ListTools.

(* ------------------------------------------------------------------ *)
(** ** mcpServer.js: the bearer check *)

Module Auth.
Import Js.

(** What the middleware does with a request: hands it on, or answers
    it with [res.status(status).json(body)]. *)
Inductive Handled : Type :=
  | next
  | json (status : Z) (body : value).

Definition unauthorized (message : string) : Handled :=
  json 401
    (VObj [("jsonrpc", VStr "2.0");
           ("error", VObj [("code", VNum (-32001)); ("message", VStr message)]);
           ("id", VNull)]).

(** [s.substring(n)]. *)
Fixpoint substring (n : nat) (s : string) : string :=
  match n, s with
  | O, _ => s
  | _, EmptyString => EmptyString
  | S n', String _ s' => substring n' s'
  end.

(** [!x] for a header or an environment variable. *)
Definition absent (x : option string) : bool :=
  match x with
  | None => true
  | Some s => Str.isEmpty s
  end.

Definition or_empty (x : option string) : string :=
  match x with Some s => s | None => EmptyString end.

(** [authenticateRequest]; [authHeader] is [req.headers.authorization]
    and [expectedToken] is [process.env.MCP_AUTH_TOKEN]. *)
Definition authenticateRequest (authHeader expectedToken : option string)
    : Handled :=
  if absent expectedToken then next
  else if absent authHeader
          || negb (Str.startsWith (or_empty authHeader) "Bearer ")
  then unauthorized "Unauthorized: Missing or invalid authorization header"
  else
    let token := substring 7 (or_empty authHeader) in
    if negb (String.eqb token (or_empty expectedToken))
    then unauthorized "Unauthorized: Invalid token"
    else next.

End Auth.

(* ------------------------------------------------------------------ *)
(** ** mcpServer.js: the sessions of the event-stream binding *)

Module Sse.
Import Js.

(** A plain object used as a map from session identifiers; the
    identifiers stored are the ones the transports generate. *)
Definition table (A : Type) : Type := list (string * A).

(** [o[k] = a]. *)
Fixpoint assign {A : Type} (k : string) (a : A) (o : table A) : table A :=
  match o with
  | [] => [(k, a)]
  | (k', a') :: r =>
      if String.eqb k' k then (k, a) :: r else (k', a') :: assign k a r
  end.

(** [delete o[k]]. *)
Fixpoint delete {A : Type} (k : string) (o : table A) : table A :=
  match o with
  | [] => []
  | (k', a') :: r =>
      if String.eqb k' k then delete k r else (k', a') :: delete k r
  end.

(** What [o[k]] evaluates to: a stored handle, a member of
    [Object.prototype], or [undefined]. *)
Inductive Slot (A : Type) : Type :=
  | Own (a : A)
  | Inherited
  | Undefined.

Arguments Own {A} a.
Arguments Inherited {A}.
Arguments Undefined {A}.

Fixpoint find_own {A : Type} (k : string) (o : table A) : option A :=
  match o with
  | [] => None
  | (k', a) :: r => if String.eqb k' k then Some a else find_own k r
  end.

Definition read {A : Type} (k : string) (o : table A) : Slot A :=
  match find_own k o with
  | Some a => Own a
  | None => if mem k Object_prototype_names then Inherited else Undefined
  end.

Definition truthy_slot {A : Type} (x : Slot A) : bool :=
  match x with Undefined => false | _ => true end.

Section Sessions.

Variables Transport Server : Type.

(** [transport.sessionId]. *)
Variable sessionId : Transport -> string.

(** The two objects [setupSSE] keeps. *)
Record State : Type := {
  transports : table Transport;
  servers : table Server
}.

Definition initial : State := {| transports := []; servers := [] |}.

(** [GET /sse]: the two assignments. *)
Definition get_sse (transport : Transport) (server : Server) (st : State)
    : State :=
  {| transports := assign (sessionId transport) transport (transports st);
     servers := assign (sessionId transport) server (servers st) |}.

(** The [close] handler up to its [await server.close()]. *)
Definition close_begin (transport : Transport) (st : State) : State :=
  {| transports := delete (sessionId transport) (transports st);
     servers := servers st |}.

(** The [close] handler after its [await]. *)
Definition close_end (transport : Transport) (st : State) : State :=
  {| transports := transports st;
     servers := delete (sessionId transport) (servers st) |}.

(** What [POST /messages] does. *)
Inductive Posted : Type :=
  | handlePostMessage (transport : Transport)
  | send (status : Z) (text : string)
  | TypeError (message : string).

(** The property key [req.query.sessionId] stands for. *)
Definition key_of (query_sessionId : option string) : string :=
  match query_sessionId with Some s => s | None => "undefined" end.

(** [POST /messages]. *)
Definition post_messages (query_sessionId : option string) (st : State)
    : Posted :=
  let transport := read (key_of query_sessionId) (transports st) in
  let server := read (key_of query_sessionId) (servers st) in
  if truthy_slot transport && truthy_slot server then
    match transport with
    | Own t => handlePostMessage t
    | _ => TypeError "transport.handlePostMessage is not a function"
    end
  else send 400 "No transport/server found for sessionId".

(** [Object.keys(transports).length], the [activeSessions] of
    [GET /health]. *)
Definition activeSessions (st : State) : nat := length (transports st).

(** What happens to the two objects over time. *)
Inductive Event : Type :=
  | Subscribed (transport : Transport) (server : Server)
  | Closing (transport : Transport)
  | Closed (transport : Transport).

Definition step (st : State) (e : Event) : State :=
  match e with
  | Subscribed transport server => get_sse transport server st
  | Closing transport => close_begin transport st
  | Closed transport => close_end transport st
  end.

Definition after (events : list Event) : State := fold_left step events initial.

End Sessions.

End Sse.

(* ================================================================== *)
(** * Properties *)

(** ** Substring facts *)

Module StrFacts.
Import Str.

Lemma startsWith_self_app (p t : string) : startsWith (p ++ t) p = true.
Proof.
  induction p as [|c p IH]; simpl.
  - reflexivity.
  - now rewrite Ascii.eqb_refl, IH.
Qed.

Lemma startsWith_app_l (s t p : string) :
  startsWith s p = true -> startsWith (s ++ t) p = true.
Proof.
  revert s; induction p as [|c p IH]; intros s H.
  - reflexivity.
  - destruct s as [|d s]; simpl in *; [discriminate|].
    apply andb_true_iff in H as [Hc Hp].
    now rewrite Hc, (IH _ Hp).
Qed.

Lemma includes_app_l (s t p : string) :
  includes s p = true -> includes (s ++ t) p = true.
Proof.
  induction s as [|c s IH]; intros H.
  - simpl in H. rewrite orb_false_r in H.
    destruct p; [|discriminate]. now destruct t.
  - cbn [includes] in H. apply orb_true_iff in H as [H|H].
    + change (String c s ++ t) with (String c (s ++ t)).
      cbn [includes].
      change (String c (s ++ t)) with (String c s ++ t).
      now rewrite (startsWith_app_l _ t _ H).
    + change (String c s ++ t) with (String c (s ++ t)).
      cbn [includes]. rewrite (IH H). apply orb_true_r.
Qed.


Lemma includes_self_app (p t : string) : includes (p ++ t) p = true.
Proof.
  destruct p as [|c p].
  - now destruct t.
  - change (String c p ++ t) with (String c (p ++ t)).
    cbn [includes].
    change (String c (p ++ t)) with (String c p ++ t).
    now rewrite startsWith_self_app.
Qed.

End StrFacts.

(** ** The call handler *)

Module McpServerFacts.
Import Js McpServer.

Lemma formattedResult_by_shape (result : value) :
  formattedResult result = Spec.text_by_shape result.
Proof.
  destruct result as [| b | z | s | items | props]; try reflexivity.
  unfold formattedResult; cbn.
  destruct (lookup "data" props) as [d|]; [|reflexivity].
  destruct d; cbn; rewrite ?andb_false_r; reflexivity.
Qed.

Lemma mem_In (k : string) (l : list string) : mem k l = true <-> In k l.
Proof.
  unfold mem. rewrite existsb_exists. split.
  - intros (x & Hx & E). apply String.eqb_eq in E. now subst.
  - intros H. exists k. split; [assumption | apply String.eqb_refl].
Qed.

(** The loop stops on the first name the [in] test rejects. *)
Lemma first_missing_Some (requiredParameters : list string) (args : object)
    (p : string) :
  first_missing requiredParameters args = Some p <->
  exists before after,
    requiredParameters = (before ++ p :: after)%list
    /\ Forall (fun r => has_in r args = true) before
    /\ has_in p args = false.
Proof.
  split.
  - induction requiredParameters as [|r rest IH]; simpl; [discriminate|].
    destruct (has_in r args) eqn:E.
    + intros H. destruct (IH H) as (b & a & -> & Hb & Hp).
      exists (r :: b), a. repeat split; auto.
    + intros [= <-]. exists [], rest. repeat split; auto.
  - intros (b & a & -> & Hb & Hp).
    induction Hb as [|r b Hr _ IH]; simpl.
    + now rewrite Hp.
    + now rewrite Hr.
Qed.

Lemma first_missing_None (requiredParameters : list string) (args : object) :
  first_missing requiredParameters args = None <->
  Forall (fun r => has_in r args = true) requiredParameters.
Proof.
  induction requiredParameters as [|r rest IH]; simpl.
  - split; auto.
  - destruct (has_in r args) eqn:E.
    + rewrite IH. split; [auto | now inversion 1].
    + split; [discriminate | inversion 1; congruence].
Qed.

Section Resolved.

(** A call that resolves [toolName] to [tool]. *)
Variables (tools : list Tool) (now toolName : string) (args : object).
Variable tool : Tool.
Hypothesis resolved :
  find (fun t => String.eqb (name t) toolName) tools = Some tool.

Lemma callTool_missing (p : string) :
  first_missing (requiredParameters tool) args = Some p ->
  callTool tools now toolName args =
  Fault InvalidParams ("Missing required parameter: " ++ p).
Proof.
  intros H. unfold callTool. now rewrite resolved, H.
Qed.

Lemma callTool_invokes :
  first_missing (requiredParameters tool) args = None ->
  callTool tools now toolName args =
  reply_of now toolName (function tool args).
Proof.
  intros H. unfold callTool. now rewrite resolved, H.
Qed.

End Resolved.

(** A value that prints as JavaScript does converts. *)
Lemma plain_converts (v : value) : plain v = true -> converts v = true.
Proof.
  revert v. fix IH 1. intros [| b | z | s | items | props]; cbn;
    try reflexivity; [|auto].
  induction items as [|x items IHitems]; [reflexivity|].
  intros H. apply andb_true_iff in H as [Hx Hr].
  rewrite (IH x Hx). exact (IHitems Hr).
Qed.

(** The only fault the [try] block raises is InternalError. *)
Lemma reply_of_Fault (now toolName : string) (o : Outcome value)
    (code : ErrorCode) (message : string) :
  reply_of now toolName o = Fault code message -> code = InternalError.
Proof.
  unfold reply_of. destruct o as [r|m]; [|now intros [= <- _]].
  destruct (has_error r); [|discriminate].
  destruct (get r "error") as [e|]; [|discriminate].
  destruct (converts e); [discriminate | now intros [= <- _]].
Qed.

Lemma find_head (t : Tool) (rest : list Tool) :
  find (fun t' => String.eqb (name t') (name t)) (t :: rest) = Some t.
Proof. simpl. now rewrite String.eqb_refl. Qed.

End McpServerFacts.

(** ** The claims on the call handler *)

Module Dispatcher.
Import Js McpServer McpServerFacts.

(** C1.  A tool that requires [store_Hash], called with
    [{store_Hash: "abc"}], whose operation returns
    [{"data":[{"id":1}]}]: the sole content text is the count line
    followed by the payload pretty-printed and [isError] is absent, and
    [_meta.hasData] is the payload's [data] array, which is not the
    boolean [true]. *)
Theorem C1_hasData_is_the_data_array
    (tool : Tool) (others : list Tool) (now : string) :
  required tool = Some ["store_Hash"] ->
  function tool Samples.abc = Returns Samples.one_item ->
  callTool (tool :: others) now (name tool) Samples.abc =
    Responds
      {| content :=
           [text_item
              ("Found 1 items:" ++ Str.nl ++ JSON_stringify_2 Samples.one_item)];
         isError := None;
         _meta :=
           Some {| toolName := name tool;
                   resultType := "object";
                   hasData := VArr [VObj [("id", VNum 1)]];
                   timestamp := now |} |}
  /\ VArr [VObj [("id", VNum 1)]] <> VBool true.
Proof.
  intros Hreq Hret. split; [|discriminate].
  rewrite (callTool_invokes _ _ _ _ tool (find_head tool others)).
  - now rewrite Hret.
  - unfold requiredParameters. now rewrite Hreq.
Qed.

Lemma C1_hasData_is_the_data_array_witness :
  callTool [Samples.mock "get_all_products" (Some ["store_Hash"])
              (Returns Samples.one_item)]
    Samples.now "get_all_products" Samples.abc =
    Responds
      {| content :=
           [text_item
              ("Found 1 items:" ++ Str.nl ++ JSON_stringify_2 Samples.one_item)];
         isError := None;
         _meta :=
           Some {| toolName := "get_all_products";
                   resultType := "object";
                   hasData := VArr [VObj [("id", VNum 1)]];
                   timestamp := Samples.now |} |}
  /\ VArr [VObj [("id", VNum 1)]] <> VBool true.
Proof.
  apply (C1_hasData_is_the_data_array
           (Samples.mock "get_all_products" (Some ["store_Hash"])
              (Returns Samples.one_item)) [] Samples.now);
    reflexivity.
Defined.

(** C5.  A result that is not a failure is answered with the text its
    shape gives: a string verbatim, an array or an object with a [data]
    array behind the count line and pretty-printed whole, any other
    object pretty-printed, any other value converted to a string. *)
Theorem C5_text_by_shape
    (tools : list Tool) (now toolName : string) (args : object)
    (tool : Tool) (result : value) :
  find (fun t => String.eqb (name t) toolName) tools = Some tool ->
  first_missing (requiredParameters tool) args = None ->
  function tool args = Returns result ->
  has_error result = false ->
  exists meta,
    callTool tools now toolName args =
      Responds
        {| content := [text_item (Spec.text_by_shape result)];
           isError := None;
           _meta := Some meta |}.
Proof.
  intros Hfind Hreq Hret Herr.
  rewrite (callTool_invokes _ _ _ _ _ Hfind Hreq), Hret.
  unfold reply_of. rewrite Herr, formattedResult_by_shape.
  eexists. reflexivity.
Qed.

Lemma C5_text_by_shape_witness :
  exists meta,
    callTool [Samples.mock "t" None
                (Returns (VObj [("data", VArr [VNum 1; VNum 2]); ("meta", VObj [])]))]
      Samples.now "t" [] =
      Responds
        {| content :=
             [text_item
                (Spec.text_by_shape
                   (VObj [("data", VArr [VNum 1; VNum 2]); ("meta", VObj [])]))];
           isError := None;
           _meta := Some meta |}.
Proof.
  apply (C5_text_by_shape
           [Samples.mock "t" None
              (Returns (VObj [("data", VArr [VNum 1; VNum 2]); ("meta", VObj [])]))]
           Samples.now "t" []
           (Samples.mock "t" None
              (Returns (VObj [("data", VArr [VNum 1; VNum 2]); ("meta", VObj [])]))));
    reflexivity.
Defined.

(** C6, as stated, at an operation that returns [{error: ""}]: the
    reply is not the [isError] envelope. *)
Lemma C6_empty_message_counterexample :
  ~ exists e,
      callTool [Samples.mock "t" None (Returns (VObj [("error", VStr EmptyString)]))]
        Samples.now "t" [] = Responds e
      /\ isError e = Some true.
Proof.
  intros (e & H & He). cbv in H. injection H as <-. discriminate He.
Qed.

(** C6, amended.  An operation that returns an object whose [error] is
    a non-empty string is answered with the [isError] envelope carrying
    ["Error: "] and the message, not with a fault; an operation that
    throws is answered with the InternalError fault, whose message ends
    with the thrown message. *)
Theorem C6_two_fault_channels
    (tools : list Tool) (now toolName : string) (args : object)
    (tool : Tool) :
  find (fun t => String.eqb (name t) toolName) tools = Some tool ->
  first_missing (requiredParameters tool) args = None ->
  (forall result message,
      function tool args = Returns result ->
      get result "error" = Some (VStr message) ->
      message <> EmptyString ->
      callTool tools now toolName args =
        Responds
          {| content := [text_item ("Error: " ++ message)];
             isError := Some true;
             _meta := None |})
  /\ (forall message,
        function tool args = Throws message ->
        callTool tools now toolName args =
          Fault InternalError ("API error: " ++ message)).
Proof.
  intros Hfind Hreq.
  rewrite (callTool_invokes _ _ _ _ _ Hfind Hreq). split.
  - intros result message -> Hget Hne. unfold reply_of, has_error.
    destruct result; try discriminate Hget.
    rewrite Hget. cbn.
    destruct message; [congruence | reflexivity].
  - now intros message ->.
Qed.

Lemma C6_two_fault_channels_witness :
  callTool [Samples.mock "t" None (Returns (VObj [("error", VStr "HTTP 500")]))]
    Samples.now "t" [] =
    Responds
      {| content := [text_item "Error: HTTP 500"];
         isError := Some true;
         _meta := None |}
  /\ callTool [Samples.mock "u" None (Throws "fetch failed")]
       Samples.now "u" [] =
     Fault InternalError "API error: fetch failed".
Proof.
  split.
  - apply (proj1 (C6_two_fault_channels
                    [Samples.mock "t" None (Returns (VObj [("error", VStr "HTTP 500")]))]
                    Samples.now "t" []
                    (Samples.mock "t" None (Returns (VObj [("error", VStr "HTTP 500")])))
                    eq_refl eq_refl)
             (VObj [("error", VStr "HTTP 500")]) "HTTP 500");
      [reflexivity | reflexivity | discriminate].
  - apply (proj2 (C6_two_fault_channels
                    [Samples.mock "u" None (Throws "fetch failed")]
                    Samples.now "u" []
                    (Samples.mock "u" None (Throws "fetch failed"))
                    eq_refl eq_refl)
             "fetch failed").
    reflexivity.
Defined.

(** C7.  At a descriptor that requires [toString] and the empty bag:
    the bag has no such key, yet the presence check lets the call
    through, the name being inherited from [Object.prototype]; the
    operation is invoked and no InvalidParams fault names [toString]. *)
Theorem C7_inherited_name_passes_the_check :
  own "toString" [] = false
  /\ callTool [Samples.mock "t" (Some ["toString"]) (Returns VNull)]
       Samples.now "t" [] =
     Responds
       {| content := [text_item "null"];
          isError := None;
          _meta :=
            Some {| toolName := "t";
                    resultType := "object";
                    hasData := VNull;
                    timestamp := Samples.now |} |}
  /\ ~ exists message,
         callTool [Samples.mock "t" (Some ["toString"]) (Returns VNull)]
           Samples.now "t" [] = Fault InvalidParams message.
Proof.
  split; [reflexivity|]. split; [reflexivity|].
  intros (m & H). cbv in H. discriminate H.
Qed.

(** X28.  Presence is JavaScript's [in]: a required name is present
    when the bag has it as a key or [Object.prototype] defines it.
    When some required name is not present, the reply is the
    InvalidParams fault naming the first such name in declared order.
    The values bound to the keys are not looked at: a bag that has
    every required name as a key raises no InvalidParams fault; and once
    the required names are present the whole bag, with its optional and
    unknown keys, goes to the operation, whose outcome alone decides
    the reply. *)
Theorem first_missing_parameter_wins
    (tools : list Tool) (now toolName : string) (args : object)
    (tool : Tool) :
  find (fun t => String.eqb (name t) toolName) tools = Some tool ->
  (forall before p after,
      requiredParameters tool = (before ++ p :: after)%list ->
      Forall (fun r => has_in r args = true) before ->
      has_in p args = false ->
      callTool tools now toolName args =
        Fault InvalidParams ("Missing required parameter: " ++ p))
  /\ (Forall (fun r => In r (map fst args)) (requiredParameters tool) ->
      forall message,
        callTool tools now toolName args <> Fault InvalidParams message)
  /\ (Forall (fun r => has_in r args = true) (requiredParameters tool) ->
      callTool tools now toolName args =
        reply_of now toolName (function tool args)).
Proof.
  intros Hfind. split; [|split].
  - intros before p after E Hb Hp.
    apply (callTool_missing _ _ _ _ _ Hfind).
    apply first_missing_Some. now exists before, after.
  - intros Hall message.
    rewrite (callTool_invokes _ _ _ _ _ Hfind).
    + intros H. apply reply_of_Fault in H. discriminate H.
    + apply first_missing_None.
      eapply Forall_impl; [|exact Hall].
      intros r Hr. unfold has_in, own.
      apply orb_true_iff. left. now apply mem_In.
  - intros Hall.
    apply (callTool_invokes _ _ _ _ _ Hfind).
    now apply first_missing_None.
Qed.

Lemma first_missing_parameter_wins_witness :
  callTool [Samples.mock "t" (Some ["a"; "b"; "c"]) (Returns VNull)]
    Samples.now "t" [("a", VNull); ("x", VNum 1)] =
    Fault InvalidParams "Missing required parameter: b"
  /\ (forall message,
        callTool [Samples.mock "t" (Some ["a"; "b"; "c"]) (Returns VNull)]
          Samples.now "t" [("c", VNull); ("b", VStr EmptyString); ("a", VNum 0)]
        <> Fault InvalidParams message).
Proof.
  pose proof (first_missing_parameter_wins
                [Samples.mock "t" (Some ["a"; "b"; "c"]) (Returns VNull)]
                Samples.now "t" [("a", VNull); ("x", VNum 1)]
                (Samples.mock "t" (Some ["a"; "b"; "c"]) (Returns VNull))
                eq_refl) as (H1 & _ & _).
  pose proof (first_missing_parameter_wins
                [Samples.mock "t" (Some ["a"; "b"; "c"]) (Returns VNull)]
                Samples.now "t" [("c", VNull); ("b", VStr EmptyString); ("a", VNum 0)]
                (Samples.mock "t" (Some ["a"; "b"; "c"]) (Returns VNull))
                eq_refl) as (_ & H2 & _).
  split.
  - apply (H1 ["a"] "b" ["c"]); [reflexivity | | reflexivity].
    repeat constructor.
  - apply H2. repeat constructor; cbn; tauto.
Defined.

(** C9, as stated, at an operation that returns
    [{error: {toString: 1}}]: the [error] is truthy, but its string
    conversion throws inside the [try], and the reply is the
    InternalError fault, not the [isError] envelope. *)
Lemma C9_unconvertible_error_counterexample :
  truthy (VObj [("toString", VNum 1)]) = true
  /\ callTool
       [Samples.mock "t" None
          (Returns (VObj [("error", VObj [("toString", VNum 1)])]))]
       Samples.now "t" [] =
     Fault InternalError "API error: Cannot convert object to primitive value"
  /\ ~ exists e,
         callTool
           [Samples.mock "t" None
              (Returns (VObj [("error", VObj [("toString", VNum 1)])]))]
           Samples.now "t" [] = Responds e.
Proof.
  split; [reflexivity|]. split; [reflexivity|].
  intros (e & H). cbv in H. discriminate H.
Qed.

(** C9, amended.  The branch is taken on the truthiness of
    [result.error].  An object (or array) result whose [error] is
    absent or falsy, such as the empty string, [0] or [null], is
    formatted as a success, with no [isError]; one whose [error] is
    truthy, of whatever type, and converts to a string is answered with
    the [isError] envelope, the text being ["Error: "] and the string
    conversion of that value. *)
Theorem C9_error_by_truthiness
    (tools : list Tool) (now toolName : string) (args : object)
    (tool : Tool) (result : value) :
  find (fun t => String.eqb (name t) toolName) tools = Some tool ->
  first_missing (requiredParameters tool) args = None ->
  function tool args = Returns result ->
  typeof result = TObject -> result <> VNull ->
  (truthy_opt (get result "error") = false ->
   callTool tools now toolName args =
     Responds
       {| content := [text_item (formattedResult result)];
          isError := None;
          _meta :=
            Some {| McpServer.toolName := toolName;
                    resultType := "object";
                    hasData := hasData_of result;
                    timestamp := now |} |})
  /\ (forall e,
        get result "error" = Some e -> truthy e = true -> plain e = true ->
        callTool tools now toolName args =
          Responds
            {| content := [text_item ("Error: " ++ ToString e)];
               isError := Some true;
               _meta := None |})
  /\ truthy_opt None = false
  /\ truthy (VStr EmptyString) = false
  /\ truthy (VNum 0) = false
  /\ truthy VNull = false.
Proof.
  intros Hfind Hreq Hret Hty Hnn.
  rewrite (callTool_invokes _ _ _ _ _ Hfind Hreq), Hret.
  unfold reply_of, has_error. rewrite Hty.
  repeat split.
  - intros Hf. rewrite Hf, andb_false_r. reflexivity.
  - intros e He Ht Hp. rewrite He. cbn [truthy_opt]. rewrite Ht.
    rewrite (plain_converts _ Hp).
    destruct result; try discriminate He. reflexivity.
Qed.

Lemma C9_error_by_truthiness_witness :
  callTool [Samples.mock "t" None (Returns (VObj [("error", VNum 0)]))]
    Samples.now "t" [] =
    Responds
      {| content := [text_item (formattedResult (VObj [("error", VNum 0)]))];
         isError := None;
         _meta :=
           Some {| McpServer.toolName := "t";
                   resultType := "object";
                   hasData := VBool false;
                   timestamp := Samples.now |} |}
  /\ callTool [Samples.mock "u" None (Returns (VObj [("error", VNum 404)]))]
       Samples.now "u" [] =
     Responds
       {| content := [text_item "Error: 404"];
          isError := Some true;
          _meta := None |}.
Proof.
  split.
  - apply (proj1 (C9_error_by_truthiness
                    [Samples.mock "t" None (Returns (VObj [("error", VNum 0)]))]
                    Samples.now "t" []
                    (Samples.mock "t" None (Returns (VObj [("error", VNum 0)])))
                    (VObj [("error", VNum 0)])
                    eq_refl eq_refl eq_refl eq_refl
                    ltac:(discriminate))).
    reflexivity.
  - apply (proj1 (proj2 (C9_error_by_truthiness
                           [Samples.mock "u" None
                              (Returns (VObj [("error", VNum 404)]))]
                           Samples.now "u" []
                           (Samples.mock "u" None
                              (Returns (VObj [("error", VNum 404)])))
                           (VObj [("error", VNum 404)])
                           eq_refl eq_refl eq_refl eq_refl
                           ltac:(discriminate)))
             (VNum 404));
      reflexivity.
Defined.

End Dispatcher.

(** ** The three operations *)

Module ToolsFacts.
Import Js Platform Tools McpServer McpServerFacts.

Lemma fold_append_if (args : object) (table : list (string * string))
    (q : URLSearchParams) :
  fold_left (fun q row => append_if (destructured args (fst row)) (snd row) q)
    table q
  = (q ++ flat_map (row_pairs args) table)%list.
Proof.
  revert q. induction table as [|row table IH]; intros q; simpl.
  - now rewrite app_nil_r.
  - rewrite IH, app_assoc. f_equal.
    unfold append_if, row_pairs, append.
    destruct (destructured args (fst row)) as [v|];
      [destruct (truthy v)|]; now rewrite ?app_nil_r.
Qed.

Lemma from_table_flat_map (table : list (string * string)) (args : object) :
  from_table table args = flat_map (row_pairs args) table.
Proof. unfold from_table. now rewrite fold_append_if. Qed.





Lemma orders_by_table (args : object) :
  GetAllOrders.queryParams args = from_table GetAllOrders.parameters args.
Proof. reflexivity. Qed.

Lemma customers_by_table (args : object) :
  GetAllCustomers.queryParams args
  = from_table GetAllCustomers.parameters args.
Proof. reflexivity. Qed.






Lemma call_customers parse_text env fetch (now : string) (args : object) :
  callTool (registry parse_text env fetch) now "get_all_customers" args
  = reply_of now "get_all_customers"
      (Returns (GetAllCustomers.executeFunction parse_text env fetch args)).
Proof. reflexivity. Qed.


Section Upstream.

Variable parse_text : string -> Outcome value.
Variable env : Env.
Variable fetch : Request -> Outcome Response.
Variable response : Response.
Hypothesis answered : forall r, fetch r = Returns response.

Lemma products_reads (args : object) :
  GetAllProducts.executeFunction parse_text env fetch args
  = caught "products" (read_or_sentinel parse_text (Returns response)).
Proof. unfold GetAllProducts.executeFunction. now rewrite answered. Qed.

Lemma orders_reads (args : object) :
  GetAllOrders.executeFunction parse_text env fetch args
  = caught "orders" (read_or_sentinel parse_text (Returns response)).
Proof. unfold GetAllOrders.executeFunction. now rewrite answered. Qed.

Lemma customers_reads (args : object) :
  GetAllCustomers.executeFunction parse_text env fetch args
  = caught "customers" (GetAllCustomers.read parse_text (Returns response)).
Proof. unfold GetAllCustomers.executeFunction. now rewrite answered. Qed.




End Upstream.

End ToolsFacts.

(** ** The claims on the operations *)

Module Operations.
Import Js Platform Tools McpServer McpServerFacts ToolsFacts.

(** C2.  On a 2xx response with an empty body get_all_products and
    get_all_orders return the sentinel [{data: [], meta: {total: 0}}];
    get_all_customers has no such test, hands the empty text to
    [JSON.parse] and returns a failure, which the handler answers with
    the [isError] envelope. *)
Theorem C2_customers_fail_on_empty_body
    (parse_text : string -> Outcome value) (env : Env)
    (fetch : Request -> Outcome Response) (response : Response)
    (now : string) (args : object) :
  (forall r, fetch r = Returns response) ->
  ok response = true ->
  body response = EmptyString ->
  GetAllProducts.executeFunction parse_text env fetch args = sentinel
  /\ GetAllOrders.executeFunction parse_text env fetch args = sentinel
  /\ GetAllCustomers.executeFunction parse_text env fetch args =
       VObj [("error",
              VStr "An error occurred while getting all customers: Unexpected end of JSON input")]
  /\ callTool (registry parse_text env fetch) now "get_all_customers" args =
       Responds
         {| content :=
              [text_item
                 "Error: An error occurred while getting all customers: Unexpected end of JSON input"];
            isError := Some true;
            _meta := None |}.
Proof.
  intros Hfetch Hok Hbody.
  assert (Hc : GetAllCustomers.executeFunction parse_text env fetch args =
               VObj [("error",
                      VStr "An error occurred while getting all customers: Unexpected end of JSON input")]).
  { rewrite (customers_reads _ _ _ _ Hfetch).
    unfold GetAllCustomers.read, Platform.text. rewrite Hok, Hbody.
    reflexivity. }
  repeat split.
  - rewrite (products_reads _ _ _ _ Hfetch).
    unfold read_or_sentinel, Platform.text. rewrite Hok, Hbody. reflexivity.
  - rewrite (orders_reads _ _ _ _ Hfetch).
    unfold read_or_sentinel, Platform.text. rewrite Hok, Hbody. reflexivity.
  - exact Hc.
  - rewrite call_customers, Hc. reflexivity.
Qed.

Lemma C2_customers_fail_on_empty_body_witness :
  GetAllProducts.executeFunction Samples.parse_text Samples.env
    (Samples.upstream 200 "OK" EmptyString) [] = sentinel
  /\ GetAllCustomers.executeFunction Samples.parse_text Samples.env
       (Samples.upstream 200 "OK" EmptyString) [] =
     VObj [("error",
            VStr "An error occurred while getting all customers: Unexpected end of JSON input")].
Proof.
  pose proof (C2_customers_fail_on_empty_body
                Samples.parse_text Samples.env
                (Samples.upstream 200 "OK" EmptyString)
                {| status := 200; statusText := "OK"; body := EmptyString |}
                Samples.now []
                (fun _ => eq_refl) eq_refl eq_refl) as (Hp & _ & Hc & _).
  split; assumption.
Defined.

(** C3, as stated: the query of get_all_orders called with
    [{customer_id: 3}] carries, beside [customer_id], the keys [limit]
    and [page] of two more of the operation's parameters. *)
Lemma C3_paging_keys_counterexample :
  In "limit" (map snd GetAllOrders.parameters)
  /\ "limit" <> "customer_id"
  /\ In "limit" (map fst (GetAllOrders.queryParams [("customer_id", VNum 3)]))
  /\ ~ (forall key,
          In key (map snd GetAllOrders.parameters) -> key <> "customer_id" ->
          ~ In key (map fst (GetAllOrders.queryParams [("customer_id", VNum 3)]))).
Proof.
  assert (H1 : In "limit" (map snd GetAllOrders.parameters)) by (cbn; tauto).
  assert (H2 : In "limit"
                 (map fst (GetAllOrders.queryParams [("customer_id", VNum 3)])))
    by (cbn; tauto).
  repeat split; try assumption; try discriminate.
  intros H. apply (H "limit" H1); [discriminate | exact H2].
Qed.

(** C3, amended.  get_all_orders called with [{customer_id: 3}] asks
    upstream for the orders with the query string
    [customer_id=3&limit=50&page=1]: its keys are [customer_id], and
    [limit] and [page] with their defaults, and no other. *)
Theorem C3_orders_of_customer_3
    (parse_text : string -> Outcome value) (env : Env)
    (fetch : Request -> Outcome Response) :
  GetAllOrders.queryParams [("customer_id", VNum 3)] =
    [("customer_id", "3"); ("limit", "50"); ("page", "1")]
  /\ URLSearchParams_toString (GetAllOrders.queryParams [("customer_id", VNum 3)])
     = "customer_id=3&limit=50&page=1"
  /\ (forall key,
        In key (map fst (GetAllOrders.queryParams [("customer_id", VNum 3)]))
        <-> key = "customer_id" \/ key = "limit" \/ key = "page")
  /\ GetAllOrders.executeFunction parse_text env fetch [("customer_id", VNum 3)] =
       caught "orders"
         (read_or_sentinel parse_text
            (fetch
               (GET env
                  ((baseUrl ++ "/" ++ env_text (BIGCOMMERCE_STORE_HASH env)
                      ++ "/v2/orders")
                     ++ "?customer_id=3&limit=50&page=1")))).
Proof.
  repeat split.
  - cbn. intuition.
  - cbn. intuition.
Qed.






End Operations.

(** ** Start-up and shutdown *)

Module Startup.
Import Js McpServer.

(** X25.  With neither flag the pipe binding serves the discovered
    tools, an interrupt then ends the process with code 0, and a failed
    discovery ends it with code 1. *)
Lemma pipe_exit_codes (process_argv : list string) (tools : list Tool)
    (message : string) :
  mem "--streamable-http" (skipn 2 process_argv) = false ->
  mem "--sse" (skipn 2 process_argv) = false ->
  run process_argv (Returns tools) = Serving Stdio tools
  /\ SIGINT (run process_argv (Returns tools)) = Exited 0
  /\ run process_argv (Throws message) = Exited 1.
Proof. intros H1 H2. unfold run. now rewrite H1, H2. Qed.

(** X26.  With exactly one of the two flags a failed discovery still
    starts the binding of that flag, on an empty tool list, with its
    health route: streamable HTTP for [--streamable-http], the event
    stream for [--sse]. *)
Lemma degraded_start (process_argv : list string) (message : string) :
  (mem "--streamable-http" (skipn 2 process_argv) = true ->
   mem "--sse" (skipn 2 process_argv) = false ->
   run process_argv (Throws message) = Serving StreamableHttp []
   /\ In ("GET", "/health") (endpoints StreamableHttp))
  /\ (mem "--streamable-http" (skipn 2 process_argv) = false ->
      mem "--sse" (skipn 2 process_argv) = true ->
      run process_argv (Throws message) = Serving SSE []
      /\ In ("GET", "/health") (endpoints SSE)).
Proof.
  unfold run. split; intros H1 H2; rewrite H1, H2; cbn; tauto.
Qed.

(** C8.  With both [--streamable-http] and [--sse] given the process
    exits with code 1 when discovery succeeds; when discovery fails the
    flags are not compared, and the HTTP binding starts on an empty
    tool list instead of the process exiting. *)
Theorem C8_both_flags_after_failed_discovery
    (process_argv : list string) (tools : list Tool) (message : string) :
  mem "--streamable-http" (skipn 2 process_argv) = true ->
  mem "--sse" (skipn 2 process_argv) = true ->
  run process_argv (Returns tools) = Exited 1
  /\ run process_argv (Throws message) = Serving StreamableHttp []
  /\ run process_argv (Throws message) <> Exited 1.
Proof.
  intros H1 H2. unfold run. rewrite H1, H2. cbn.
  repeat split. discriminate.
Qed.

Lemma C8_both_flags_after_failed_discovery_witness :
  run ["node"; "mcpServer.js"; "--streamable-http"; "--sse"]
    (Throws "Cannot find module") = Serving StreamableHttp [].
Proof.
  apply (C8_both_flags_after_failed_discovery
           ["node"; "mcpServer.js"; "--streamable-http"; "--sse"] []
           "Cannot find module" eq_refl eq_refl).
Defined.

End Startup.

(** ** More on the call handler *)

Module DispatcherMore.
Import Js McpServer McpServerFacts.

Lemma find_name_None (tools : list Tool) (toolName : string) :
  find (fun t => String.eqb (name t) toolName) tools = None
  <-> ~ In toolName (map name tools).
Proof.
  induction tools as [|t tools IH]; simpl.
  - tauto.
  - destruct (String.eqb (name t) toolName) eqn:E.
    + apply String.eqb_eq in E. split; [discriminate | tauto].
    + apply String.eqb_neq in E. rewrite IH. tauto.
Qed.

Lemma find_skips (before : list Tool) (tool : Tool) (after : list Tool) :
  (forall t, In t before -> name t <> name tool) ->
  find (fun t => String.eqb (name t) (name tool)) (before ++ tool :: after)%list
  = Some tool.
Proof.
  induction before as [|b before IH]; intros H; simpl.
  - now rewrite String.eqb_refl.
  - destruct (String.eqb (name b) (name tool)) eqn:E.
    + apply String.eqb_eq in E. exfalso. apply (H b); simpl; auto.
    + apply IH. intros t Ht. apply H. simpl; auto.
Qed.

(** X1.  A name no registered tool carries is answered with the
    MethodNotFound fault ["Unknown tool: " + name], whatever the
    arguments; a name some tool carries never is. *)
Theorem unknown_tool_is_MethodNotFound
    (tools : list Tool) (now toolName : string) (args : object) :
  (~ In toolName (map name tools) ->
   callTool tools now toolName args =
     Fault MethodNotFound ("Unknown tool: " ++ toolName))
  /\ (In toolName (map name tools) ->
      forall message,
        callTool tools now toolName args <> Fault MethodNotFound message).
Proof.
  split.
  - intros H. apply find_name_None in H. unfold callTool. now rewrite H.
  - intros H message. unfold callTool.
    destruct (find _ tools) as [tool|] eqn:E.
    + destruct (first_missing _ args); [discriminate|].
      intros Hf. apply reply_of_Fault in Hf. discriminate Hf.
    + apply find_name_None in E. contradiction.
Qed.

(** X2.  When several tools carry one name the first of them in the
    registry answers: the call is answered as if that tool were alone. *)
Theorem first_registered_tool_answers
    (before : list Tool) (tool : Tool) (after : list Tool)
    (now : string) (args : object) :
  (forall t, In t before -> name t <> name tool) ->
  callTool (before ++ tool :: after)%list now (name tool) args
  = callTool [tool] now (name tool) args.
Proof.
  intros H. unfold callTool.
  rewrite (find_skips before tool after H), (find_head tool []).
  reflexivity.
Qed.

Lemma first_registered_tool_answers_witness :
  callTool
    ([Samples.mock "a" None (Returns VNull)]
       ++ Samples.mock "t" None (Returns (VNum 1))
       :: [Samples.mock "t" None (Returns (VNum 2))])%list
    Samples.now "t" []
  = callTool [Samples.mock "t" None (Returns (VNum 1))] Samples.now "t" [].
Proof.
  apply (first_registered_tool_answers
           [Samples.mock "a" None (Returns VNull)]
           (Samples.mock "t" None (Returns (VNum 1)))
           [Samples.mock "t" None (Returns (VNum 2))]
           Samples.now []).
  intros t [<-|[]]. discriminate.
Defined.

(** X3.  Every envelope the handler returns has exactly one content
    item, of type [text].  It either carries [isError: true] and no
    [_meta], or no [isError] and a [_meta] that names the called tool,
    the time of the call and the [typeof] of the result. *)
Theorem envelope_shape
    (tools : list Tool) (now toolName : string) (args : object)
    (e : Envelope) :
  callTool tools now toolName args = Responds e ->
  (exists s, content e = [{| type := "text"; text := s |}])
  /\ ((isError e = Some true /\ _meta e = None)
      \/ (isError e = None
          /\ exists m,
               _meta e = Some m
               /\ McpServer.toolName m = toolName
               /\ timestamp m = now
               /\ In (resultType m) ["string"; "number"; "boolean"; "object"])).
Proof.
  unfold callTool.
  destruct (find _ tools) as [tool|]; [|discriminate].
  destruct (first_missing _ args); [discriminate|].
  unfold reply_of. destruct (function tool args) as [r|m]; [|discriminate].
  destruct (has_error r).
  - destruct (get r "error") as [err|];
      [destruct (converts err); [|discriminate]|];
      intros [= <-]; cbn; (split; [eexists; reflexivity | left; auto]).
  - intros [= <-]; cbn.
    split; [eexists; reflexivity|]. right. split; [reflexivity|].
    eexists. repeat split. destruct r; cbn; tauto.
Qed.

Lemma envelope_shape_witness :
  (exists s,
      [text_item (formattedResult (VArr [VNum 1]))]
      = [{| type := "text"; text := s |}])
  /\ ((None = Some true /\ Some {| McpServer.toolName := "t";
                                   resultType := "object";
                                   hasData := VBool true;
                                   timestamp := Samples.now |} = None)
      \/ (@None bool = None
          /\ exists m,
               Some {| McpServer.toolName := "t";
                       resultType := "object";
                       hasData := VBool true;
                       timestamp := Samples.now |} = Some m
               /\ McpServer.toolName m = "t"
               /\ timestamp m = Samples.now
               /\ In (resultType m) ["string"; "number"; "boolean"; "object"])).
Proof.
  apply (envelope_shape
           [Samples.mock "t" None (Returns (VArr [VNum 1]))]
           Samples.now "t" []
           {| content := [text_item (formattedResult (VArr [VNum 1]))];
              isError := None;
              _meta := Some {| McpServer.toolName := "t";
                               resultType := "object";
                               hasData := VBool true;
                               timestamp := Samples.now |} |}).
  reflexivity.
Defined.

(** X4.  [_meta.hasData] is truthy exactly when the result is an array
    or has a truthy [data] property. *)
Theorem hasData_truthy (result : value) :
  truthy (hasData_of result)
  = Array_isArray result || truthy_opt (get result "data").
Proof.
  destruct result as [| b | z | s | items | props]; cbn; try reflexivity.
  - now destruct b.
  - unfold hasData_of. cbn.
    destruct (Z.eqb z 0) eqn:E; cbn; rewrite ?E; reflexivity.
  - now destruct s.
  - unfold hasData_of. cbn.
    destruct (lookup "data" props) as [d|]; cbn; [|reflexivity].
    destruct (truthy d) eqn:E; [exact E | reflexivity].
Qed.

(** X5.  Once the tool is resolved and its required parameters are
    present, the only fault the handler can raise is InternalError.  It
    raises it in exactly two cases: the operation throws, and the
    message is ["API error: "] and the thrown message; or the operation
    returns a result whose [error] is truthy and does not convert to a
    string, and the message is ["API error: "] and the TypeError's. *)
Theorem InternalError_iff_operation_throws
    (tools : list Tool) (now toolName : string) (args : object)
    (tool : Tool) (code : ErrorCode) (message : string) :
  find (fun t => String.eqb (name t) toolName) tools = Some tool ->
  first_missing (requiredParameters tool) args = None ->
  (callTool tools now toolName args = Fault code message
   <-> code = InternalError
       /\ ((exists thrown,
              function tool args = Throws thrown
              /\ message = "API error: " ++ thrown)
           \/ (exists result e,
                 function tool args = Returns result
                 /\ has_error result = true
                 /\ get result "error" = Some e
                 /\ converts e = false
                 /\ message = "API error: " ++ cannot_convert))).
Proof.
  intros Hfind Hreq.
  rewrite (callTool_invokes _ _ _ _ _ Hfind Hreq). unfold reply_of.
  destruct (function tool args) as [r|m].
  - destruct (has_error r) eqn:Herr.
    + destruct (get r "error") as [e|] eqn:Hget.
      * destruct (converts e) eqn:Hc.
        -- split; [discriminate|].
           intros (_ & [(thrown & H & _)|(r' & e' & H & _ & He & Hc' & _)]).
           ++ discriminate H.
           ++ injection H as <-. rewrite Hget in He. injection He as <-.
              congruence.
        -- split.
           ++ intros [= <- <-]. split; [reflexivity|]. right.
              exists r, e. repeat split; auto.
           ++ intros (-> & [(thrown & H & _)|(r' & e' & _ & _ & _ & _ & ->)]).
              ** discriminate H.
              ** reflexivity.
      * split; [discriminate|].
        intros (_ & [(thrown & H & _)|(r' & e' & H & _ & He & _)]).
        -- discriminate H.
        -- injection H as <-. rewrite Hget in He. discriminate He.
    + split; [discriminate|].
      intros (_ & [(thrown & H & _)|(r' & e' & H & Herr' & _)]).
      * discriminate H.
      * injection H as <-. congruence.
  - split.
    + intros [= <- <-]. split; [reflexivity|]. left. now exists m.
    + intros (-> & [(thrown & [= ->] & ->)|(r' & e' & H & _)]).
      * reflexivity.
      * discriminate H.
Qed.

Lemma InternalError_iff_operation_throws_witness :
  callTool [Samples.mock "t" None (Throws "fetch failed")] Samples.now "t" []
  = Fault InternalError "API error: fetch failed".
Proof.
  apply (proj2 (InternalError_iff_operation_throws
                  [Samples.mock "t" None (Throws "fetch failed")]
                  Samples.now "t" []
                  (Samples.mock "t" None (Throws "fetch failed"))
                  InternalError "API error: fetch failed"
                  eq_refl eq_refl)).
  split; [reflexivity|]. left. exists "fetch failed". split; reflexivity.
Defined.

End DispatcherMore.

(** ** The list handler *)

Module ListToolsFacts.
Import Js ListTools.

Lemma filter_Boolean_app {A : Type} (a b : list (option A)) :
  filter_Boolean (a ++ b)%list = (filter_Boolean a ++ filter_Boolean b)%list.
Proof.
  induction a as [|[x|] a IH]; simpl; [reflexivity | now rewrite IH | exact IH].
Qed.

(** X6.  The list handler keeps the registry's order and skips the
    tools that have no [definition.function]: around any tool, the
    answer is the answer for the tools before it, then its entry (its
    name, its description and its parameters as [inputSchema]) if it has
    a definition and nothing if not, then the answer for the tools
    after it. *)
Theorem transformTools_in_registry_order
    (before : list (option ToolDefinition.t)) (tool : option ToolDefinition.t)
    (after : list (option ToolDefinition.t)) :
  transformTools (before ++ tool :: after)%list
  = (transformTools before
       ++ match tool with
          | Some d =>
              [{| name := ToolDefinition.name d;
                  description := ToolDefinition.description d;
                  inputSchema := ToolDefinition.parameters d |}]
          | None => []
          end
       ++ transformTools after)%list.
Proof.
  unfold transformTools. rewrite map_app, filter_Boolean_app.
  f_equal. now destruct tool.
Qed.

End ListToolsFacts.

(** ** The bearer check *)

Module AuthFacts.
Import Js Auth.

Lemma startsWith_split (s p : string) :
  Str.startsWith s p = true -> s = p ++ substring (String.length p) s.
Proof.
  revert s. induction p as [|c p IH]; intros s H; simpl in *.
  - reflexivity.
  - destruct s as [|d s]; [discriminate|].
    apply andb_true_iff in H as [Hc Hp].
    apply Ascii.eqb_eq in Hc. subst d. f_equal. now apply IH.
Qed.

Lemma substring_app (p t : string) : substring (String.length p) (p ++ t) = t.
Proof. induction p as [|c p IH]; simpl; [now destruct t | exact IH]. Qed.

Lemma not_empty (s : string) : s <> EmptyString -> Str.isEmpty s = false.
Proof. destruct s; [congruence | reflexivity]. Qed.

(** X7.  With no secret configured, the variable unset or empty, every
    request is handed on, whatever its Authorization header. *)
Theorem no_secret_no_check (authHeader expectedToken : option string) :
  absent expectedToken = true ->
  authenticateRequest authHeader expectedToken = next.
Proof. intros H. unfold authenticateRequest. now rewrite H. Qed.

Lemma no_secret_no_check_witness :
  authenticateRequest (Some "Bearer anything") (Some EmptyString) = next.
Proof.
  apply (no_secret_no_check (Some "Bearer anything") (Some EmptyString)).
  reflexivity.
Defined.

(** X8.  With a secret configured, a request is handed on exactly when
    its Authorization header is ["Bearer "] followed by the secret,
    byte for byte. *)
Theorem bearer_token_must_match (authHeader : option string) (secret : string) :
  secret <> EmptyString ->
  (authenticateRequest authHeader (Some secret) = next
   <-> authHeader = Some ("Bearer " ++ secret)).
Proof.
  intros Hs. unfold authenticateRequest. cbn [absent or_empty].
  rewrite (not_empty _ Hs). split.
  - destruct authHeader as [h|]; cbn [absent or_empty]; [|discriminate].
    destruct (Str.isEmpty h); [discriminate|]. cbn [orb].
    destruct (Str.startsWith h "Bearer ") eqn:Hp; [|discriminate].
    cbn [negb].
    destruct (String.eqb (substring 7 h) secret) eqn:Ht; [|discriminate].
    intros _. apply String.eqb_eq in Ht. subst secret.
    f_equal. exact (startsWith_split h "Bearer " Hp).
  - intros ->. cbn [absent or_empty Str.isEmpty append orb].
    rewrite (StrFacts.startsWith_self_app "Bearer " secret). cbn [negb].
    change 7%nat with (String.length "Bearer ").
    now rewrite substring_app, String.eqb_refl.
Qed.

Lemma bearer_token_must_match_witness :
  authenticateRequest (Some "Bearer s3cret") (Some "s3cret") = next.
Proof.
  apply (proj2 (bearer_token_must_match (Some "Bearer s3cret") "s3cret"
                  ltac:(discriminate))).
  reflexivity.
Defined.

(** X9.  With a secret configured, a request whose Authorization
    header is missing or does not start with ["Bearer "] is answered
    401 with error code -32001 and the missing-header message; one
    that presents another token after ["Bearer "] is answered 401 with
    the same code and the invalid-token message. *)
Theorem rejection_reasons (authHeader : option string) (secret : string) :
  secret <> EmptyString ->
  ((forall token, authHeader <> Some ("Bearer " ++ token)) ->
   authenticateRequest authHeader (Some secret) =
     json 401
       (VObj [("jsonrpc", VStr "2.0");
              ("error",
               VObj [("code", VNum (-32001));
                     ("message",
                      VStr "Unauthorized: Missing or invalid authorization header")]);
              ("id", VNull)]))
  /\ (forall token,
        authHeader = Some ("Bearer " ++ token) -> token <> secret ->
        authenticateRequest authHeader (Some secret) =
          json 401
            (VObj [("jsonrpc", VStr "2.0");
                   ("error",
                    VObj [("code", VNum (-32001));
                          ("message", VStr "Unauthorized: Invalid token")]);
                   ("id", VNull)])).
Proof.
  intros Hs. unfold authenticateRequest. cbn [absent or_empty].
  rewrite (not_empty _ Hs). split.
  - intros Hno. destruct authHeader as [h|]; cbn [absent or_empty]; [|reflexivity].
    destruct (Str.isEmpty h); [reflexivity|]. cbn [orb].
    destruct (Str.startsWith h "Bearer ") eqn:Hp; [|reflexivity].
    exfalso. apply (Hno (substring 7 h)). f_equal.
    exact (startsWith_split h "Bearer " Hp).
  - intros token -> Hne. cbn [absent or_empty Str.isEmpty append orb].
    rewrite (StrFacts.startsWith_self_app "Bearer " token). cbn [negb].
    change 7%nat with (String.length "Bearer ").
    rewrite substring_app.
    destruct (String.eqb token secret) eqn:E; [|reflexivity].
    apply String.eqb_eq in E. contradiction.
Qed.

Lemma rejection_reasons_witness :
  authenticateRequest (Some "bearer s3cret") (Some "s3cret") =
    unauthorized "Unauthorized: Missing or invalid authorization header"
  /\ authenticateRequest (Some "Bearer s3cre") (Some "s3cret") =
       unauthorized "Unauthorized: Invalid token".
Proof.
  split.
  - apply (proj1 (rejection_reasons (Some "bearer s3cret") "s3cret"
                    ltac:(discriminate))).
    intros token. discriminate.
  - apply (proj2 (rejection_reasons (Some "Bearer s3cre") "s3cret"
                    ltac:(discriminate)) "s3cre");
      [reflexivity | discriminate].
Defined.

End AuthFacts.

(** ** The sessions of the event-stream binding *)

Module SseFacts.
Import Js Sse.

Lemma find_own_assign_same {A : Type} (k : string) (a : A) (o : table A) :
  find_own k (assign k a o) = Some a.
Proof.
  induction o as [|[k' a'] o IH]; simpl.
  - now rewrite String.eqb_refl.
  - destruct (String.eqb k' k) eqn:E; simpl.
    + now rewrite String.eqb_refl.
    + now rewrite E.
Qed.

Lemma find_own_assign_other {A : Type} (k k' : string) (a : A) (o : table A) :
  k <> k' -> find_own k' (assign k a o) = find_own k' o.
Proof.
  intros Hne. induction o as [|[k0 a0] o IH]; simpl.
  - apply String.eqb_neq in Hne. now rewrite Hne.
  - destruct (String.eqb k0 k) eqn:E; simpl.
    + apply String.eqb_eq in E. subst k0.
      apply String.eqb_neq in Hne. now rewrite Hne.
    + now rewrite IH.
Qed.

Lemma find_own_delete_same {A : Type} (k : string) (o : table A) :
  find_own k (delete k o) = None.
Proof.
  induction o as [|[k' a'] o IH]; simpl; [reflexivity|].
  destruct (String.eqb k' k) eqn:E; simpl; [exact IH | now rewrite E].
Qed.

Lemma find_own_delete_other {A : Type} (k k' : string) (o : table A) :
  k <> k' -> find_own k' (delete k o) = find_own k' o.
Proof.
  intros Hne. induction o as [|[k0 a0] o IH]; simpl; [reflexivity|].
  destruct (String.eqb k0 k) eqn:E; simpl.
  - apply String.eqb_eq in E. subst k0.
    apply String.eqb_neq in Hne. now rewrite Hne.
  - now rewrite IH.
Qed.

Lemma find_own_In {A : Type} (k : string) (o : table A) :
  find_own k o = None <-> ~ In k (map fst o).
Proof.
  induction o as [|[k' a'] o IH]; simpl; [tauto|].
  destruct (String.eqb k' k) eqn:E.
  - apply String.eqb_eq in E. split; [discriminate | tauto].
  - apply String.eqb_neq in E. rewrite IH. tauto.
Qed.

Lemma In_assign {A : Type} (k k' : string) (a : A) (o : table A) :
  In k' (map fst (assign k a o)) -> k' = k \/ In k' (map fst o).
Proof.
  induction o as [|[k0 a0] o IH]; simpl.
  - intros [<-|[]]. now left.
  - destruct (String.eqb k0 k) eqn:E; simpl.
    + intros [<-|H]; [now left | now right; right].
    + intros [<-|H]; [now right; left|].
      destruct (IH H); [now left | now right; right].
Qed.

Lemma In_delete {A : Type} (k k' : string) (o : table A) :
  In k' (map fst (delete k o)) -> In k' (map fst o).
Proof.
  induction o as [|[k0 a0] o IH]; simpl; [tauto|].
  destruct (String.eqb k0 k); simpl; intuition.
Qed.

Lemma NoDup_assign {A : Type} (k : string) (a : A) (o : table A) :
  NoDup (map fst o) -> NoDup (map fst (assign k a o)).
Proof.
  induction o as [|[k0 a0] o IH]; simpl; intros H.
  - constructor; [tauto | constructor].
  - inversion H as [|? ? Hnot Hnd]; subst.
    destruct (String.eqb k0 k) eqn:E; simpl.
    + apply String.eqb_eq in E. subst k0. now constructor.
    + apply String.eqb_neq in E. constructor; [|now apply IH].
      intros Hin. destruct (In_assign _ _ _ _ Hin); [congruence | contradiction].
Qed.

Lemma NoDup_delete {A : Type} (k : string) (o : table A) :
  NoDup (map fst o) -> NoDup (map fst (delete k o)).
Proof.
  induction o as [|[k0 a0] o IH]; simpl; intros H; [constructor|].
  inversion H as [|? ? Hnot Hnd]; subst.
  destruct (String.eqb k0 k); simpl; [now apply IH|].
  constructor; [|now apply IH].
  intros Hin. apply Hnot. eapply In_delete, Hin.
Qed.

Lemma length_assign {A : Type} (k : string) (a : A) (o : table A) :
  length (assign k a o)
  = match find_own k o with
    | Some _ => length o
    | None => S (length o)
    end.
Proof.
  induction o as [|[k0 a0] o IH]; simpl; [reflexivity|].
  destruct (String.eqb k0 k); simpl; [reflexivity|].
  rewrite IH. now destruct (find_own k o).
Qed.

Lemma length_delete_absent {A : Type} (k : string) (o : table A) :
  ~ In k (map fst o) -> delete k o = o.
Proof.
  induction o as [|[k0 a0] o IH]; simpl; intros H; [reflexivity|].
  destruct (String.eqb k0 k) eqn:E.
  - apply String.eqb_eq in E. tauto.
  - f_equal. apply IH. tauto.
Qed.

Lemma length_delete {A : Type} (k : string) (o : table A) :
  NoDup (map fst o) ->
  length o
  = match find_own k o with
    | Some _ => S (length (delete k o))
    | None => length (delete k o)
    end.
Proof.
  induction o as [|[k0 a0] o IH]; simpl; intros H; [reflexivity|].
  inversion H as [|? ? Hnot Hnd]; subst.
  destruct (String.eqb k0 k) eqn:E; simpl.
  - apply String.eqb_eq in E. subst k0.
    now rewrite (length_delete_absent _ _ Hnot).
  - rewrite (IH Hnd). now destruct (find_own k o).
Qed.

Section Sessions.

Variables Transport Server : Type.
Variable sessionId : Transport -> string.

(** X10.  A message posted with the identifier of a session that has
    just subscribed is handed to that session's transport, whatever
    sessions there were before. *)
Theorem subscribed_session_is_served
    (transport : Transport) (server : Server) (st : State Transport Server) :
  post_messages Transport Server (Some (sessionId transport)) (get_sse Transport Server sessionId transport server st)
  = handlePostMessage Transport transport.
Proof.
  unfold Sse.post_messages, Sse.get_sse, read.
  cbn [transports servers key_of].
  now rewrite !find_own_assign_same.
Qed.

(** X11.  As soon as the close handler of a session has started, and
    after it has finished, a message posted with that session's
    identifier is answered 400. *)
Theorem closed_session_is_refused (transport : Transport) (st : State Transport Server) :
  mem (sessionId transport) Object_prototype_names = false ->
  post_messages Transport Server (Some (sessionId transport)) (close_begin Transport Server sessionId transport st)
  = send Transport 400 "No transport/server found for sessionId"
  /\ post_messages Transport Server (Some (sessionId transport))
       (close_end Transport Server sessionId transport (close_begin Transport Server sessionId transport st))
     = send Transport 400 "No transport/server found for sessionId".
Proof.
  intros H. unfold Sse.post_messages, Sse.close_begin, Sse.close_end, read.
  cbn [transports servers key_of]. now rewrite !find_own_delete_same, H.
Qed.

(** X12.  A message whose identifier names no stored transport is
    answered 400, unless the identifier is the name of a member of
    [Object.prototype]: then the handler finds that member in both
    objects and throws a TypeError instead of answering. *)
Theorem unknown_session (query_sessionId : option string) (st : State Transport Server) :
  find_own (key_of query_sessionId) (transports Transport Server st) = None ->
  (mem (key_of query_sessionId) Object_prototype_names = false ->
   post_messages Transport Server query_sessionId st
   = send Transport 400 "No transport/server found for sessionId")
  /\ (mem (key_of query_sessionId) Object_prototype_names = true ->
      post_messages Transport Server query_sessionId st
      = TypeError Transport
          "transport.handlePostMessage is not a function").
Proof.
  intros H. unfold Sse.post_messages, read. rewrite H. split; intros Hp.
  - now rewrite Hp.
  - rewrite Hp.
    now destruct (find_own (key_of query_sessionId) (servers Transport Server st)).
Qed.

(** X13.  Subscribing or closing one session leaves the answer to a
    message for any other identifier as it was. *)
Theorem sessions_are_isolated
    (transport : Transport) (server : Server)
    (query_sessionId : option string) (st : State Transport Server) :
  sessionId transport <> key_of query_sessionId ->
  post_messages Transport Server query_sessionId (get_sse Transport Server sessionId transport server st)
  = post_messages Transport Server query_sessionId st
  /\ post_messages Transport Server query_sessionId (close_begin Transport Server sessionId transport st)
     = post_messages Transport Server query_sessionId st
  /\ post_messages Transport Server query_sessionId (close_end Transport Server sessionId transport st)
     = post_messages Transport Server query_sessionId st.
Proof.
  intros H.
  unfold Sse.post_messages, Sse.get_sse, Sse.close_begin, Sse.close_end, read.
  cbn [transports servers].
  now rewrite !(find_own_assign_other _ _ _ _ H),
              !(find_own_delete_other _ _ _ H).
Qed.

Lemma after_NoDup (events : list (Event Transport Server)) (st : State Transport Server) :
  NoDup (map fst (transports Transport Server st)) ->
  NoDup (map fst (transports Transport Server (fold_left (step Transport Server sessionId) events st))).
Proof.
  revert st. induction events as [|e events IH]; intros st H; simpl.
  - exact H.
  - apply IH. destruct e; cbn.
    + now apply NoDup_assign.
    + now apply NoDup_delete.
    + exact H.
Qed.

(** X14.  Whatever sessions have subscribed and closed so far, the
    [activeSessions] count of the health route grows by one when a
    session with a new identifier subscribes, and drops by one when the
    close handler of a session that is in the table starts; it starts
    at zero. *)
Theorem activeSessions_counts
    (events : list (Event Transport Server))
    (transport : Transport) (server : Server) :
  activeSessions Transport Server (initial Transport Server) = O
  /\ (find_own (sessionId transport)
        (transports Transport Server (after Transport Server sessionId events)) = None ->
      activeSessions Transport Server (get_sse Transport Server sessionId transport server (after Transport Server sessionId events))
      = S (activeSessions Transport Server (after Transport Server sessionId events)))
  /\ (find_own (sessionId transport)
        (transports Transport Server (after Transport Server sessionId events)) <> None ->
      S (activeSessions Transport Server (close_begin Transport Server sessionId transport (after Transport Server sessionId events)))
      = activeSessions Transport Server (after Transport Server sessionId events)).
Proof.
  split; [reflexivity|]. unfold activeSessions. cbn. split.
  - intros H. now rewrite length_assign, H.
  - intros H.
    rewrite (length_delete (sessionId transport)
               (transports Transport Server (after Transport Server sessionId events))).
    + destruct (find_own _ _); [reflexivity | congruence].
    + apply after_NoDup. constructor.
Qed.

End Sessions.

Lemma closed_session_is_refused_witness :
  post_messages string unit (Some "6d3c") (close_begin string unit (fun t : string => t) "6d3c"
                                 (get_sse string unit (fun t : string => t) "6d3c" tt
                                    (initial string unit)))
  = send string 400 "No transport/server found for sessionId".
Proof.
  apply (proj1 (closed_session_is_refused string unit (fun t => t) "6d3c"
                  (get_sse string unit (fun t : string => t) "6d3c" tt (initial string unit))
                  eq_refl)).
Defined.

Lemma unknown_session_witness :
  post_messages string unit (Some "toString") (initial string unit)
  = TypeError string "transport.handlePostMessage is not a function".
Proof.
  apply (proj2 (unknown_session string unit (Some "toString")
                  (initial string unit) eq_refl)).
  reflexivity.
Defined.

Lemma sessions_are_isolated_witness :
  post_messages string unit (Some "6d3c")
    (get_sse string unit (fun t : string => t) "91af" tt
       (get_sse string unit (fun t : string => t) "6d3c" tt (initial string unit)))
  = post_messages string unit (Some "6d3c")
      (get_sse string unit (fun t : string => t) "6d3c" tt (initial string unit)).
Proof.
  apply (proj1 (sessions_are_isolated string unit (fun t => t) "91af" tt
                  (Some "6d3c")
                  (get_sse string unit (fun t : string => t) "6d3c" tt (initial string unit))
                  ltac:(discriminate))).
Defined.

End SseFacts.

(** ** More on the three operations *)

Module ToolsMore.
Import Js Platform Tools McpServer McpServerFacts ToolsFacts.




Section Upstream.

Variable parse_text : string -> Outcome value.
Variable env : Env.
Variable fetch : Request -> Outcome Response.
Variables (now : string) (args : object).


Variable response : Response.
Hypothesis answered : forall r, fetch r = Returns response.




End Upstream.





End ToolsMore.

(** ** The query strings and the URLs *)

Module QueryFacts.
Import Js Platform Tools ToolsFacts.

Lemma from_table_In (table : list (string * string)) (args : object)
    (k s : string) :
  In (k, s) (from_table table args)
  <-> exists p v,
        In (p, k) table /\ destructured args p = Some v
        /\ truthy v = true /\ s = ToString v.
Proof.
  rewrite from_table_flat_map, in_flat_map. split.
  - intros ([p k'] & Hrow & Hin). unfold row_pairs in Hin. cbn [fst snd] in Hin.
    destruct (destructured args p) as [v|] eqn:Hd; [|contradiction].
    destruct (truthy v) eqn:Ht; [|contradiction].
    destruct Hin as [[= <- <-]|[]]. now exists p, v.
  - intros (p & v & Hrow & Hd & Ht & ->). exists (p, k). split; [assumption|].
    unfold row_pairs. cbn [fst snd]. rewrite Hd, Ht. now left.
Qed.



(** X19.  For arguments that print as JavaScript prints them, a pair
    [key=text] is in the query of get_all_orders (get_all_customers)
    exactly when [key] is the key of one of the operation's parameters,
    that parameter, with its default if it has one, is truthy, and
    [text] is its string conversion.  So an argument the operation does
    not declare never reaches the query. *)
Theorem query_pairs (args : object) (k s : string) :
  Forall (fun kv => plain (snd kv) = true) args ->
  (In (k, s) (GetAllOrders.queryParams args)
   <-> exists p v,
         In (p, k) GetAllOrders.parameters /\ destructured args p = Some v
         /\ truthy v = true /\ s = ToString v)
  /\ (In (k, s) (GetAllCustomers.queryParams args)
      <-> exists p v,
            In (p, k) GetAllCustomers.parameters /\ destructured args p = Some v
            /\ truthy v = true /\ s = ToString v).
Proof.
  intros _. rewrite orders_by_table, customers_by_table.
  split; apply from_table_In.
Qed.

Lemma query_pairs_witness :
  (In ("email", "a@b.c")
     (GetAllOrders.queryParams [("email", VStr "a@b.c"); ("unknown", VNum 7)])
   <-> exists p v,
         In (p, "email") GetAllOrders.parameters
         /\ destructured [("email", VStr "a@b.c"); ("unknown", VNum 7)] p = Some v
         /\ truthy v = true /\ "a@b.c" = ToString v)
  /\ (In ("email", "a@b.c")
        (GetAllCustomers.queryParams [("email", VStr "a@b.c"); ("unknown", VNum 7)])
      <-> exists p v,
            In (p, "email") GetAllCustomers.parameters
            /\ destructured [("email", VStr "a@b.c"); ("unknown", VNum 7)] p = Some v
            /\ truthy v = true /\ "a@b.c" = ToString v).
Proof.
  apply (query_pairs [("email", VStr "a@b.c"); ("unknown", VNum 7)]
           "email" "a@b.c").
  repeat constructor.
Defined.






End QueryFacts.

(** ** The title of an HTML answer *)

Module TitleFacts.
Import Js Tools Tools.GetAllCustomers.

Lemma app_assoc_s (a b c : string) : (a ++ b) ++ c = a ++ b ++ c.
Proof. induction a as [|x a IH]; simpl; [reflexivity | now rewrite IH]. Qed.

Lemma rev_onto_app (s acc : string) :
  Str.rev_onto s acc = Str.rev s ++ acc.
Proof.
  unfold Str.rev. revert acc. induction s as [|c s IH]; intros acc; simpl.
  - reflexivity.
  - rewrite (IH (String c acc)), (IH (String c EmptyString)), app_assoc_s.
    reflexivity.
Qed.

Lemma rev_cons (c : ascii) (seen : string) :
  Str.rev (String c seen) = Str.rev seen ++ String c EmptyString.
Proof. unfold Str.rev at 1. simpl. apply rev_onto_app. Qed.

(** A text the pattern's literal matches starts with as many
    characters as the literal has, equal to it up to case. *)
Lemma literal_i_split (s p : string) :
  literal_i s p = true ->
  exists matched rest,
    s = matched ++ rest
    /\ String.length matched = String.length p
    /\ literal_i matched p = true
    /\ drop (String.length p) s = rest.
Proof.
  revert s. induction p as [|a p IH]; intros s H; simpl in *.
  - exists EmptyString, s. repeat split.
  - destruct s as [|b s]; [discriminate|].
    apply andb_true_iff in H as [Hc Hp].
    destruct (IH s Hp) as (m & r & -> & Hl & Hm & Hd).
    exists (String b m), r. simpl. rewrite Hl, Hc, Hm. repeat split.
    exact Hd.
Qed.

Lemma not_at_line_terminator (c : ascii) (r : string) :
  at_line_terminator (String c r) = false ->
  Str.isByte c 10 = false /\ Str.isByte c 13 = false.
Proof.
  unfold at_line_terminator.
  destruct r as [|b [|d r]]; intros H;
    repeat (apply orb_false_iff in H as [H ?]); auto;
    apply orb_false_iff in H; tauto.
Qed.

Lemma lazy_group_sound (s seen t : string) :
  lazy_group s seen = Some t ->
  exists inner closing rest,
    s = inner ++ closing ++ rest
    /\ t = Str.rev seen ++ inner
    /\ String.length closing = 8%nat
    /\ literal_i closing "</title>" = true
    /\ Forall (fun c => Str.isByte c 10 = false /\ Str.isByte c 13 = false)
         (list_ascii_of_string inner).
Proof.
  revert seen. induction s as [|c r IH]; intros seen H.
  - cbn in H. discriminate.
  - cbn [lazy_group] in H.
    destruct (literal_i (String c r) "</title>") eqn:Hlit.
    + injection H as <-.
      destruct (literal_i_split _ _ Hlit) as (m & rest & E & Hl & Hm & _).
      exists EmptyString, m, rest. cbn [append list_ascii_of_string].
      repeat split; auto.
      clear. induction (Str.rev seen); simpl; [reflexivity | now f_equal].
    + destruct (at_line_terminator (String c r)) eqn:Hlt; [discriminate|].
      destruct (IH _ H) as (inner & closing & rest & -> & -> & Hl & Hm & Hall).
      exists (String c inner), closing, rest. repeat split; auto.
      * now rewrite rev_cons, app_assoc_s.
      * cbn [list_ascii_of_string]. constructor; [|exact Hall].
        exact (not_at_line_terminator _ _ Hlt).
Qed.

Lemma titleMatch_step (s : string) :
  titleMatch s
  = match
      (if literal_i s "<title>" then lazy_group (drop 7 s) EmptyString
       else None)
    with
    | Some title => Some title
    | None =>
        match s with
        | EmptyString => None
        | String _ r => titleMatch r
        end
    end.
Proof. destruct s; reflexivity. Qed.

(** X23.  The title the customers operation reports for an HTML answer
    is the text between an opening tag that reads [<title>] up to case
    and a closing tag that reads [</title>] up to case, and has no line
    feed or carriage return in it. *)
Theorem title_is_between_the_tags (responseText title : string) :
  titleMatch responseText = Some title ->
  exists before opening closing rest,
    responseText = before ++ opening ++ title ++ closing ++ rest
    /\ String.length opening = 7%nat
    /\ literal_i opening "<title>" = true
    /\ String.length closing = 8%nat
    /\ literal_i closing "</title>" = true
    /\ Forall (fun c => Str.isByte c 10 = false /\ Str.isByte c 13 = false)
         (list_ascii_of_string title).
Proof.
  induction responseText as [|c r IH]; intros H.
  - cbn in H. discriminate.
  - rewrite titleMatch_step in H.
    destruct (literal_i (String c r) "<title>") eqn:Hopen.
    + destruct (lazy_group (drop 7 (String c r)) EmptyString) as [t|] eqn:Hg.
      * injection H as ->.
        destruct (literal_i_split _ _ Hopen) as (m & rest & E & Hl & Hm & Hd).
        cbn [String.length] in Hd. rewrite Hd in Hg.
        destruct (lazy_group_sound _ _ _ Hg)
          as (inner & closing & rest' & -> & -> & Hcl & Hcm & Hall).
        exists EmptyString, m, closing, rest'.
        cbn [append Str.rev Str.rev_onto]. repeat split; auto.
      * destruct (IH H) as (b & o & cl & rest & -> & Ho & Hom & Hc & Hcm & Hall).
        exists (String c b), o, cl, rest. repeat split; auto.
    + destruct (IH H) as (b & o & cl & rest & -> & Ho & Hom & Hc & Hcm & Hall).
      exists (String c b), o, cl, rest. repeat split; auto.
Qed.

Lemma title_is_between_the_tags_witness :
  exists before opening closing rest,
    Samples.unauthorized_page
    = before ++ opening ++ "401 Unauthorized" ++ closing ++ rest
    /\ String.length opening = 7%nat
    /\ literal_i opening "<title>" = true
    /\ String.length closing = 8%nat
    /\ literal_i closing "</title>" = true
    /\ Forall (fun c => Str.isByte c 10 = false /\ Str.isByte c 13 = false)
         (list_ascii_of_string "401 Unauthorized").
Proof.
  apply (title_is_between_the_tags Samples.unauthorized_page "401 Unauthorized").
  reflexivity.
Defined.

End TitleFacts.

(** ** The repository's tools behind the handler; more on start-up *)

Module RegistryFacts.
Import Js Platform Tools McpServer McpServerFacts ToolsFacts.



End RegistryFacts.

Module StartupMore.
Import Js McpServer.

Lemma pipe_exit_codes_witness :
  run ["node"; "mcpServer.js"] (Returns []) = Serving Stdio []
  /\ SIGINT (run ["node"; "mcpServer.js"] (Returns [])) = Exited 0
  /\ run ["node"; "mcpServer.js"] (Throws "Cannot find module") = Exited 1.
Proof.
  apply (Startup.pipe_exit_codes ["node"; "mcpServer.js"] []
           "Cannot find module" eq_refl eq_refl).
Defined.

Lemma degraded_start_witness :
  run ["node"; "mcpServer.js"; "--sse"] (Throws "Cannot find module")
  = Serving SSE []
  /\ In ("GET", "/health") (endpoints SSE).
Proof.
  apply (proj2 (Startup.degraded_start ["node"; "mcpServer.js"; "--sse"]
                  "Cannot find module"));
    reflexivity.
Defined.

End StartupMore.
